(** * A shallow embedding of [server.js]

    The backend is an Express application with five POST routes that relay
    requests to an identity provider with a data store (Supabase), a payments
    provider (Stripe), an AI provider (Gemini) and an analytics API (MMM).

    Every third-party call is an [await] whose result the handler cannot
    control.  The embedding therefore runs each handler against an
    [Upstream] record that fixes, for one request, what every third-party
    call answers; theorems quantify over it.  The data store is a list of
    rows of the [user_profiles] table; a handler is a computation in a small
    state-and-exception monad whose state holds the table, the log of
    third-party calls performed so far, and the response sent so far.
    [serve] handles requests one after another.  The checkout handler is
    also given cut at the [await] of its profile read, so that two checkout
    requests that overlap can be run. *)

From stdpp Require Import base option list gmap strings.
From Stdlib Require Import ZArith String Ascii.

Local Open Scope string_scope.
Local Open Scope Z_scope.
Local Set Warnings "-register-all".

(** ** JavaScript values *)

(** Parsed JSON, as [bodyParser.json()] and [Response.json()] produce it.
    Numbers are kept as integers: no handler computes with them. *)
Inductive json : Type :=
| JNull
| JBool (b : bool)
| JNum (n : Z)
| JStr (s : string)
| JArr (items : list json)
| JObj (fields : list (string * json)).

(** Property access [o.k]; [None] is JavaScript's [undefined]. *)
Fixpoint assoc (k : string) (fields : list (string * json)) : option json :=
  match fields with
  | [] => None
  | (k', v) :: rest => if String.eqb k k' then Some v else assoc k rest
  end.

Definition get_prop (o : json) (k : string) : option json :=
  match o with
  | JObj fields => assoc k fields
  | _ => None
  end.

(** JavaScript truthiness, as used by [!x] and [a || b]. *)
Definition truthy (v : option json) : bool :=
  match v with
  | None | Some JNull => false
  | Some (JBool b) => b
  | Some (JNum n) => negb (n =? 0)
  | Some (JStr s) => negb (String.eqb s "")
  | Some (JArr _) | Some (JObj _) => true
  end.

(** Truthiness of a value that is a string, [null] or [undefined]. *)
Definition truthy_str (v : option string) : bool :=
  match v with
  | Some s => negb (String.eqb s "")
  | None => false
  end.

(** [v === 'literal'] on such values. *)
Definition strict_eq (v : option string) (literal : string) : bool :=
  match v with
  | Some s => String.eqb s literal
  | None => false
  end.

(** [a || b] on such values. *)
Definition or_else (a b : option string) : option string :=
  if truthy_str a then a else b.

(** A template literal [`${v}`] prints an absent value as [undefined]. *)
Definition template (v : option string) : string :=
  match v with
  | Some s => s
  | None => "undefined"
  end.

(** [s.split(sep)] for a one-character separator. *)
Fixpoint split_on (sep : ascii) (s : string) : list string :=
  match s with
  | EmptyString => [EmptyString]
  | String c rest =>
      if Ascii.eqb c sep then EmptyString :: split_on sep rest
      else match split_on sep rest with
           | [] => [String c EmptyString]
           | piece :: pieces => String c piece :: pieces
           end
  end.

(** The outcome of an [await] (or of a call that may throw): a value, or an
    exception carrying [err.message]. *)
Inductive Outcome (A : Type) : Type :=
| Resolved (a : A)
| Rejected (message : string).
Arguments Resolved {A} a.
Arguments Rejected {A} message.

(** ** Process environment and startup *)

(** [process.env]: every value is a string; an unset variable is absent. *)
Abbreviation Env := (gmap string string).

(** [!process.env.NAME] *)
Definition env_missing (env : Env) (name : string) : bool :=
  negb (truthy_str (env !! name)).

(** The guard of lines 35-38. *)
Definition missing_critical (env : Env) : bool :=
  env_missing env "STRIPE_SECRET_KEY"
  || env_missing env "SUPABASE_URL"
  || env_missing env "SUPABASE_SERVICE_ROLE_KEY"
  || env_missing env "API_KEY"
  || env_missing env "MMM_API_KEY"
  || env_missing env "STRIPE_PRICE_ID"
  || env_missing env "APP_URL".

(** The variables that guard reads. *)
Definition guarded_variables : list string :=
  ["STRIPE_SECRET_KEY"; "SUPABASE_URL"; "SUPABASE_SERVICE_ROLE_KEY";
   "API_KEY"; "MMM_API_KEY"; "STRIPE_PRICE_ID"; "APP_URL"].

(** [process.env.PORT || 3001]: the variable's text, or the number 3001. *)
Inductive Port : Type :=
| PortText (s : string)
| PortNumber (n : Z).

Definition PORT (env : Env) : Port :=
  match env !! "PORT" with
  | Some s => if truthy_str (Some s) then PortText s else PortNumber 3001
  | None => PortNumber 3001
  end.

(** What running the module does: [process.exit(1)] before any route is
    registered, or [app.listen(PORT)].  Only the guard and the choice of the
    port are the module's own; the constructors of the three clients and
    the binding of the port belong to the libraries and are not described
    here. *)
Inductive Startup : Type :=
| Exit (code : Z)
| Listening (port : Port).

Definition startup (env : Env) : Startup :=
  if missing_critical env then Exit 1 else Listening (PORT env).

(** ** The data store *)

(** A row of [user_profiles]; a [None] column is SQL [NULL]. *)
Record Profile : Type := {
  profile_id : string;
  profile_email : option string;
  stripe_customer_id : option string;
  subscription_id : option string;
  subscription_status : option string
}.

Inductive Column : Type :=
| col_id
| col_email
| col_stripe_customer_id
| col_subscription_id
| col_subscription_status.

Definition get_col (c : Column) (p : Profile) : option string :=
  match c with
  | col_id => Some (profile_id p)
  | col_email => profile_email p
  | col_stripe_customer_id => stripe_customer_id p
  | col_subscription_id => subscription_id p
  | col_subscription_status => subscription_status p
  end.

(** Assigning one column.  The primary key is not nullable; no handler
    writes it. *)
Definition set_col (c : Column) (v : option string) (p : Profile) : Profile :=
  match c with
  | col_id =>
      {| profile_id := default (profile_id p) v;
         profile_email := profile_email p;
         stripe_customer_id := stripe_customer_id p;
         subscription_id := subscription_id p;
         subscription_status := subscription_status p |}
  | col_email =>
      {| profile_id := profile_id p;
         profile_email := v;
         stripe_customer_id := stripe_customer_id p;
         subscription_id := subscription_id p;
         subscription_status := subscription_status p |}
  | col_stripe_customer_id =>
      {| profile_id := profile_id p;
         profile_email := profile_email p;
         stripe_customer_id := v;
         subscription_id := subscription_id p;
         subscription_status := subscription_status p |}
  | col_subscription_id =>
      {| profile_id := profile_id p;
         profile_email := profile_email p;
         stripe_customer_id := stripe_customer_id p;
         subscription_id := v;
         subscription_status := subscription_status p |}
  | col_subscription_status =>
      {| profile_id := profile_id p;
         profile_email := profile_email p;
         stripe_customer_id := stripe_customer_id p;
         subscription_id := subscription_id p;
         subscription_status := v |}
  end.

(** The object given to [.update({...})], in source order. *)
Abbreviation Patch := (list (Column * option string)).

Fixpoint apply_patch (patch : Patch) (p : Profile) : Profile :=
  match patch with
  | [] => p
  | (c, v) :: rest => apply_patch rest (set_col c v p)
  end.

(** [.eq(column, value)]: the rows whose column holds exactly that text.  A
    [null] or [undefined] value selects no row. *)
Definition eq_filter (c : Column) (v : option string) (p : Profile) : bool :=
  match v, get_col c p with
  | Some x, Some y => String.eqb x y
  | _, _ => false
  end.

Abbreviation Table := (list Profile).

(** [UPDATE user_profiles SET patch WHERE column = value] *)
Definition update_rows (patch : Patch) (c : Column) (v : option string)
    (rows : Table) : Table :=
  (fun p => if eq_filter c v p then apply_patch patch p else p) <$> rows.

(** [.select(...).eq(column, value).single()]: the row when exactly one
    matches, otherwise an error result. *)
Definition single_row (c : Column) (v : option string) (rows : Table)
    : option Profile * option string :=
  match filter (fun p => eq_filter c v p = true) rows with
  | [p] => (Some p, None)
  | _ => (None, Some "JSON object requested, multiple (or no) rows returned")
  end.

(** ** Requests, responses and third-party calls *)

Inductive Body : Type :=
| body_json (j : json)
| body_text (s : string).

Record Response : Type := {
  status : Z;
  body : Body
}.

(** [res.status(code).json(value)] and [res.status(code).send(text)] *)
Definition json_response (code : Z) (value : json) : Response :=
  {| status := code; body := body_json value |}.
Definition text_response (code : Z) (text : string) : Response :=
  {| status := code; body := body_text text |}.

(** What a handler reads of [req]: two headers, the body parsed by
    [bodyParser.json()], and the raw body kept for the webhook. *)
Record Request : Type := {
  authorization : option string;
  stripe_signature : option string;
  req_body : json;
  raw_body : string
}.

(** The principal returned by [supabase.auth.getUser]. *)
Record User : Type := {
  user_id : string;
  user_email : option string
}.

(** [event.data.object] of a payments event.  In Stripe's event schema each
    of these fields is a string or [null]. *)
Record EventObject : Type := {
  customer : option string;
  mode : option string;
  subscription : option string;
  object_status : option string
}.

Record Event : Type := {
  event_type : string;
  data_object : EventObject
}.

(** How one data-store request ends.  The Supabase client reports a failed
    request in the [error] field of the value it resolves to, which is why
    [getSupabaseUser] and both billing handlers destructure [{ data, error }];
    it can also reject, like any promise. *)
Inductive DbOutcome : Type :=
| DbOk
| DbError (message : string)
| DbThrow (message : string).

(** Every third-party call a handler performs, with its arguments. *)
Inductive Effect : Type :=
| call_auth_getUser (accessToken : option string)
| call_select_single (c : Column) (v : option string)
| call_update (patch : Patch) (c : Column) (v : option string)
| call_customers_create (email : option string) (supabase_user_id : string)
| call_checkout_sessions_create (customer_id : option string)
    (price : option string) (success_url cancel_url : string)
| call_billingPortal_sessions_create (customer_id : option string)
    (return_url : string)
| call_generateContent (model contents config : option json)
| call_fetch (url : string) (x_api_key : option string) (payload : json).

(** What the third parties answer during one request. *)
Record Upstream : Type := {
  (** [supabase.auth.getUser(token)]: [data.user] and [error.message] *)
  auth_getUser : option string -> option User * option string;
  (** [stripe.webhooks.constructEvent(body, sig, secret)]: the verified
      event, or the exception of a signature that does not verify *)
  constructEvent : string -> option string -> option string -> Outcome Event;
  select_outcome : DbOutcome;
  update_outcome : DbOutcome;
  (** [customer.id], [session.id] and [portalSession.url] *)
  customers_create : Outcome string;
  checkout_sessions_create : Outcome string;
  billingPortal_sessions_create : Outcome string;
  (** [response.text] *)
  generateContent : Outcome string;
  (** [fetch(...)]: the response's status and what [.json()] gives *)
  fetch : Outcome (Z * Outcome json)
}.

(** ** The handler monad *)

Record World : Type := {
  table : Table;
  calls : list Effect;
  sent : option Response
}.

Definition M (A : Type) : Type := World -> Outcome A * World.

Definition ret {A} (a : A) : M A := fun w => (Resolved a, w).

Definition bind {A B} (m : M A) (k : A -> M B) : M B :=
  fun w =>
    match m w with
    | (Resolved a, w') => k a w'
    | (Rejected msg, w') => (Rejected msg, w')
    end.

Notation "'do' x <- m ; k" := (bind m (fun x => k))
  (at level 10, x name, m at level 100, k at level 200).
Notation "'do' ' pat <- m ; k" :=
  (bind m (fun x => match x with pat => k end))
  (at level 10, pat pattern, m at level 100, k at level 200).
Notation "m ;; k" := (bind m (fun _ => k))
  (at level 100, k at level 200, right associativity).

Definition throw {A} (msg : string) : M A := fun w => (Rejected msg, w).

(** [try { body } catch (err) { handler(err.message) }] *)
Definition try_catch {A} (body : M A) (handler : string -> M A) : M A :=
  fun w =>
    match body w with
    | (Resolved a, w') => (Resolved a, w')
    | (Rejected msg, w') => handler msg w'
    end.

Definition log (e : Effect) : M unit :=
  fun w => (Resolved tt,
            {| table := table w; calls := calls w ++ [e]; sent := sent w |}).

(** Sending a response.  No handler path sends twice; the first one is the
    one the client receives. *)
Definition send (r : Response) : M unit :=
  fun w => (Resolved tt,
            {| table := table w; calls := calls w;
               sent := match sent w with Some r0 => Some r0 | None => Some r end |}).

(** [res.headersSent] *)
Definition headersSent : M bool :=
  fun w => (Resolved (bool_decide (is_Some (sent w))), w).

Definition of_outcome {A} (o : Outcome A) : M A :=
  match o with
  | Resolved a => ret a
  | Rejected msg => throw msg
  end.

(** [await supabase.from('user_profiles').select(...).eq(c, v).single()] *)
Definition select_single (u : Upstream) (c : Column) (v : option string)
    : M (option Profile * option string) :=
  log (call_select_single c v) ;;
  match select_outcome u with
  | DbOk => fun w => (Resolved (single_row c v (table w)), w)
  | DbError msg => ret (None, Some msg)
  | DbThrow msg => throw msg
  end.

(** [await supabase.from('user_profiles').update(patch).eq(c, v)]; the
    value is the [error] field of the result. *)
Definition update (u : Upstream) (patch : Patch) (c : Column)
    (v : option string) : M (option string) :=
  log (call_update patch c v) ;;
  match update_outcome u with
  | DbOk =>
      fun w => (Resolved None,
                {| table := update_rows patch c v (table w);
                   calls := calls w; sent := sent w |})
  | DbError msg => ret (Some msg)
  | DbThrow msg => throw msg
  end.

(** ** The handlers *)

Section Handlers.

Variable env : Env.
Variable u : Upstream.

(** Lines 45-58.  The result is [None] for JavaScript's [null]. *)
Definition getSupabaseUser (req : Request) : M (option User) :=
  let authHeader := authorization req in
  let unauthenticated :=
    send (json_response 401
            (JObj [("error", JStr "Missing or invalid Authorization header")])) ;;
    ret None in
  match authHeader with
  | Some header =>
      if negb (truthy_str authHeader) || negb (String.prefix "Bearer " header)
      then unauthenticated
      else
        let accessToken := split_on " "%char header !! 1%nat in
        log (call_auth_getUser accessToken) ;;
        let '(user, error) := auth_getUser u accessToken in
        match error with
        | Some message =>
            send (json_response 401
                    (JObj [("error", JStr "Invalid access token");
                           ("details", JStr message)])) ;;
            ret None
        | None => ret user
        end
  | None => unauthenticated
  end.

(** Lines 62-105: [POST /api/stripe/create-checkout-session]. *)
Definition create_checkout_session (req : Request) : M unit :=
  let userId := get_prop (req_body req) "userId" in
  do user <- getSupabaseUser req ;
  let forbidden :=
    do already <- headersSent ;
    if already then ret tt
    else send (json_response 403
                 (JObj [("error",
                         JStr "User token does not match requested user ID.")])) in
  match user, userId with
  | Some user, Some (JStr userId) =>
      if negb (String.eqb (user_id user) userId) then forbidden
      else
        try_catch
          (do '(profile, profileError) <- select_single u col_id (Some userId) ;
           match profileError, profile with
           | None, Some profile =>
               do stripeCustomerId <-
                 (if truthy_str (stripe_customer_id profile)
                  then ret (stripe_customer_id profile)
                  else
                    log (call_customers_create
                           (or_else (profile_email profile) (user_email user))
                           userId) ;;
                    do customer <- of_outcome (customers_create u) ;
                    update u [(col_stripe_customer_id, Some customer)]
                      col_id (Some userId) ;;
                    ret (Some customer)) ;
               log (call_checkout_sessions_create stripeCustomerId
                      (env !! "STRIPE_PRICE_ID")
                      (template (env !! "APP_URL") +:+ "?payment_success=true")
                      (template (env !! "APP_URL") +:+ "?payment_cancel=true")) ;;
               do session <- of_outcome (checkout_sessions_create u) ;
               send (json_response 200 (JObj [("sessionId", JStr session)]))
           | _, _ =>
               send (json_response 404
                       (JObj [("error", JStr "User profile not found.")]))
           end)
          (fun message =>
             send (json_response 500 (JObj [("error", JStr message)])))
  | _, _ => forbidden
  end.

(** Lines 108-131: [POST /api/stripe/create-portal-session].  When
    [getSupabaseUser] gives [null] the handler returns without sending. *)
Definition create_portal_session (req : Request) : M unit :=
  do user <- getSupabaseUser req ;
  match user with
  | None => ret tt
  | Some user =>
      try_catch
        (do '(profile, profileError) <-
           select_single u col_id (Some (user_id user)) ;
         match profileError, profile with
         | None, Some profile =>
             if negb (truthy_str (stripe_customer_id profile))
             then send (json_response 404
                          (JObj [("error",
                                  JStr "Stripe customer ID not found for user.")]))
             else
               log (call_billingPortal_sessions_create
                      (stripe_customer_id profile) (template (env !! "APP_URL"))) ;;
               do portalSession <- of_outcome (billingPortal_sessions_create u) ;
               send (json_response 200 (JObj [("url", JStr portalSession)]))
         | _, _ =>
             send (json_response 404
                     (JObj [("error",
                             JStr "Stripe customer ID not found for user.")]))
         end)
        (fun message =>
           send (json_response 500 (JObj [("error", JStr message)])))
  end.

(** The [switch (event.type)] of lines 150-174. *)
Definition dispatch (event : Event) : M unit :=
  let eventObject := data_object event in
  let customerId := customer eventObject in
  if String.eqb (event_type event) "checkout.session.completed" then
    if strict_eq (mode eventObject) "subscription" then
      update u [(col_subscription_id, subscription eventObject);
                (col_subscription_status, Some "trialing")]
        col_stripe_customer_id customerId ;;
      ret tt
    else ret tt
  else if String.eqb (event_type event) "customer.subscription.updated"
          || String.eqb (event_type event) "customer.subscription.deleted" then
    update u [(col_subscription_status, object_status eventObject)]
      col_stripe_customer_id customerId ;;
    ret tt
  else ret tt.

(** Lines 135-180: [POST /api/stripe/webhook]. *)
Definition stripe_webhook (req : Request) : M unit :=
  let sig := stripe_signature req in
  match constructEvent u (raw_body req) sig (env !! "STRIPE_WEBHOOK_SECRET") with
  | Rejected message =>
      send (text_response 400 ("Webhook Error: " +:+ message))
  | Resolved event =>
      try_catch
        (dispatch event ;;
         send (json_response 200 (JObj [("received", JBool true)])))
        (fun _ => send (text_response 500 "Internal Server Error"))
  end.

(** Lines 183-206: [POST /api/gemini/proxy]. *)
Definition gemini_proxy (req : Request) : M unit :=
  do user <- getSupabaseUser req ;
  match user with
  | None => ret tt
  | Some _ =>
      let prompt := get_prop (req_body req) "prompt" in
      let model := get_prop (req_body req) "model" in
      let config := get_prop (req_body req) "config" in
      if negb (truthy prompt) || negb (truthy model)
      then send (json_response 400
                   (JObj [("error",
                           JStr "Missing required fields: prompt and model.")]))
      else
        try_catch
          (log (call_generateContent model prompt
                  (if truthy config then config else Some (JObj []))) ;;
           do text <- of_outcome (generateContent u) ;
           send (text_response 200 text))
          (fun message =>
             send (json_response 500
                     (JObj [("error",
                             JStr "Failed to get response from AI model.");
                            ("details", JStr message)])))
  end.

Definition mmmApiEndpoint : string :=
  "https://mmm-api-backend-7tbm.onrender.com/api/run-mmm".

(** Lines 209-235: [POST /api/mmm/proxy]. *)
Definition mmm_proxy (req : Request) : M unit :=
  do user <- getSupabaseUser req ;
  match user with
  | None => ret tt
  | Some _ =>
      let mmmApiKey := env !! "MMM_API_KEY" in
      if negb (truthy_str mmmApiKey)
      then send (json_response 500
                   (JObj [("error",
                           JStr "MMM API key is not configured on the server.")]))
      else
        try_catch
          (log (call_fetch mmmApiEndpoint mmmApiKey (req_body req)) ;;
           do '(mmmStatus, parsed) <- of_outcome (fetch u) ;
           do responseData <- of_outcome parsed ;
           send (json_response mmmStatus responseData))
          (fun message =>
             send (json_response 500
                     (JObj [("error",
                             JStr "Failed to proxy request to MMM service.");
                            ("details", JStr message)])))
  end.

End Handlers.

(** Running a handler on a table: nothing sent yet, no call made yet. *)
Definition fresh (rows : Table) : World :=
  {| table := rows; calls := []; sent := None |}.

Definition run (handler : M unit) (rows : Table) : World :=
  snd (handler (fresh rows)).

(** ** The checkout handler across its awaits

    Every [await] of a handler is a point where another request may run.
    The checkout handler is given here in two parts, cut at the [await] of
    the profile read: what it does until the read has resolved, and how it
    goes on from the result.  Run one after the other on the same world they
    are [create_checkout_session]; run with another request in between they
    give the interleavings the event loop allows. *)

Section Suspension.

Variable env : Env.
Variable u : Upstream.

(** What the handler holds when the read of lines 71-75 has resolved: the
    principal, the requested identifier, and [{ data, error }]. *)
Definition Reading : Type := User * string * (option Profile * option string).

(** Lines 63-75.  [None] when the request is already answered. *)
Definition checkout_read (req : Request) : M (option Reading) :=
  let userId := get_prop (req_body req) "userId" in
  do user <- getSupabaseUser u req ;
  let forbidden :=
    do already <- headersSent ;
    if already then ret tt
    else send (json_response 403
                 (JObj [("error",
                         JStr "User token does not match requested user ID.")])) in
  match user, userId with
  | Some user, Some (JStr userId) =>
      if negb (String.eqb (user_id user) userId) then forbidden ;; ret None
      else
        try_catch
          (do result <- select_single u col_id (Some userId) ;
           ret (Some (user, userId, result)))
          (fun message =>
             send (json_response 500 (JObj [("error", JStr message)])) ;;
             ret None)
  | _, _ => forbidden ;; ret None
  end.

(** Lines 77-104, inside the same [try]. *)
Definition checkout_resume (reading : Reading) : M unit :=
  let '(user, userId, (profile, profileError)) := reading in
  try_catch
    (match profileError, profile with
     | None, Some profile =>
         do stripeCustomerId <-
           (if truthy_str (stripe_customer_id profile)
            then ret (stripe_customer_id profile)
            else
              log (call_customers_create
                     (or_else (profile_email profile) (user_email user))
                     userId) ;;
              do customer <- of_outcome (customers_create u) ;
              update u [(col_stripe_customer_id, Some customer)]
                col_id (Some userId) ;;
              ret (Some customer)) ;
         log (call_checkout_sessions_create stripeCustomerId
                (env !! "STRIPE_PRICE_ID")
                (template (env !! "APP_URL") +:+ "?payment_success=true")
                (template (env !! "APP_URL") +:+ "?payment_cancel=true")) ;;
         do session <- of_outcome (checkout_sessions_create u) ;
         send (json_response 200 (JObj [("sessionId", JStr session)]))
     | _, _ =>
         send (json_response 404
                 (JObj [("error", JStr "User profile not found.")]))
     end)
    (fun message =>
       send (json_response 500 (JObj [("error", JStr message)]))).

(** Going on from what [checkout_read] gave. *)
Definition checkout_continue (reading : Outcome (option Reading)) : M unit :=
  match reading with
  | Resolved (Some reading) => checkout_resume reading
  | _ => ret tt
  end.

End Suspension.

(** A request's own response and call log, on the table as it is now. *)
Definition on_table (rows : Table) (w : World) : World :=
  {| table := rows; calls := calls w; sent := sent w |}.

(** Two checkout requests, the second arriving while the first awaits its
    read: the first reads, the second reads, the first goes on to its end,
    then the second.  The requests share the table; each has its response
    and call log.  The result is the world in which the first ends and the
    world in which the second ends. *)
Definition interleaved_checkouts (env : Env) (u1 : Upstream) (req1 : Request)
    (u2 : Upstream) (req2 : Request) (rows : Table) : World * World :=
  let '(reading1, w1) := checkout_read u1 req1 (fresh rows) in
  let '(reading2, w2) := checkout_read u2 req2 (fresh (table w1)) in
  let w1' := snd (checkout_continue env u1 reading1 (on_table (table w2) w1)) in
  let w2' := snd (checkout_continue env u2 reading2 (on_table (table w1') w2)) in
  (w1', w2').

(** ** Routes and sequences of requests *)

Inductive Route : Type :=
| route_create_checkout_session
| route_create_portal_session
| route_stripe_webhook
| route_gemini_proxy
| route_mmm_proxy.

Definition handle (env : Env) (u : Upstream) (r : Route) (req : Request)
    : M unit :=
  match r with
  | route_create_checkout_session => create_checkout_session env u req
  | route_create_portal_session => create_portal_session env u req
  | route_stripe_webhook => stripe_webhook env u req
  | route_gemini_proxy => gemini_proxy u req
  | route_mmm_proxy => mmm_proxy env u req
  end.

(** One request as the server sees it: the route, the request, and what the
    third parties answer while it is handled. *)
Record Exchange : Type := {
  ex_route : Route;
  ex_request : Request;
  ex_upstream : Upstream
}.

(** The table after a sequence of requests, each handled to completion. *)
Fixpoint serve (env : Env) (exchanges : list Exchange) (rows : Table) : Table :=
  match exchanges with
  | [] => rows
  | ex :: rest =>
      serve env rest
        (table (run (handle env (ex_upstream ex) (ex_route ex) (ex_request ex))
                  rows))
  end.

(** ** Vocabulary of the statements *)

(** The bearer credential of a request is not valid: the header is absent,
    it does not start with [Bearer ], or the identity provider answers the
    token it carries with an error. *)
Inductive auth_failure (u : Upstream) (req : Request) : Prop :=
| header_absent :
    authorization req = None -> auth_failure u req
| header_malformed header :
    authorization req = Some header ->
    String.prefix "Bearer " header = false ->
    auth_failure u req
| token_rejected header message :
    authorization req = Some header ->
    String.prefix "Bearer " header = true ->
    snd (auth_getUser u (split_on " "%char header !! 1%nat)) = Some message ->
    auth_failure u req.

(** The request carries a bearer token that the identity provider resolves
    to [user]. *)
Definition authenticated (u : Upstream) (req : Request) (user : User) : Prop :=
  exists header,
    authorization req = Some header
    /\ String.prefix "Bearer " header = true
    /\ auth_getUser u (split_on " "%char header !! 1%nat) = (Some user, None).

(** A checkout request that [user] makes for their own identifier. *)
Definition own_checkout (u : Upstream) (req : Request) (user : User) : Prop :=
  authenticated u req user
  /\ get_prop (req_body req) "userId" = Some (JStr (user_id user)).

Definition session_created (session : string) : Response :=
  json_response 200 (JObj [("sessionId", JStr session)]).

(** The webhook's signature check accepts the request as [event]. *)
Definition verified (env : Env) (u : Upstream) (req : Request) (event : Event)
    : Prop :=
  constructEvent u (raw_body req) (stripe_signature req)
    (env !! "STRIPE_WEBHOOK_SECRET") = Resolved event.

Definition is_auth_call (e : Effect) : bool :=
  match e with call_auth_getUser _ => true | _ => false end.

Definition is_customers_create (e : Effect) : bool :=
  match e with call_customers_create _ _ => true | _ => false end.

Definition is_update (e : Effect) : bool :=
  match e with call_update _ _ _ => true | _ => false end.

Definition count (f : Effect -> bool) (l : list Effect) : nat :=
  List.length (List.filter f l).

Definition received : Response :=
  json_response 200 (JObj [("received", JBool true)]).

(** The event's customer id is the payments-customer identifier of no
    stored profile. *)
Definition unknown_customer (event : Event) (rows : Table) : Prop :=
  forall p c,
    p ∈ rows ->
    customer (data_object event) = Some c ->
    stripe_customer_id p <> Some c.

(** Every profile that has a payments-customer identifier in [rows] is
    still at the same place in [rows'], with the same identifier. *)
Definition keeps_customer_ids (rows rows' : Table) : Prop :=
  forall i p,
    rows !! i = Some p ->
    truthy_str (stripe_customer_id p) = true ->
    exists p',
      rows' !! i = Some p'
      /\ profile_id p' = profile_id p
      /\ stripe_customer_id p' = stripe_customer_id p.

(** The header passes the two tests of [getSupabaseUser], and the identity
    provider answers its token with neither a user nor an error. *)
Definition anonymous (u : Upstream) (req : Request) : Prop :=
  exists header,
    authorization req = Some header
    /\ String.prefix "Bearer " header = true
    /\ auth_getUser u (split_on " "%char header !! 1%nat) = (None, None).

(** [s.includes(c)] *)
Fixpoint has_char (c : ascii) (s : string) : bool :=
  match s with
  | EmptyString => false
  | String c' rest => Ascii.eqb c' c || has_char c rest
  end.

(** The columns of a profile that identify its owner. *)
Definition identity_of (p : Profile) : string * option string :=
  (profile_id p, profile_email p).

Definition is_fetch (e : Effect) : bool :=
  match e with call_fetch _ _ _ => true | _ => false end.

(** The status codes written in each handler.  The analytics relay also
    answers with whatever status the upstream response carries. *)
Definition own_statuses (r : Route) : list Z :=
  match r with
  | route_create_checkout_session => [200; 401; 403; 404; 500]
  | route_create_portal_session => [200; 401; 404; 500]
  | route_stripe_webhook => [200; 400; 500]
  | route_gemini_proxy => [200; 400; 401; 500]
  | route_mmm_proxy => [401; 500]
  end.

Definition status_allowed (u : Upstream) (r : Route) (code : Z) : Prop :=
  code ∈ own_statuses r
  \/ (r = route_mmm_proxy /\ exists parsed, fetch u = Resolved (code, parsed)).

(** The log is empty or starts with the verification of the token. *)
Definition starts_with_auth (l : list Effect) : bool :=
  match l with
  | [] => true
  | e :: _ => is_auth_call e
  end.

(** The webhook sends the data store nothing, or one update of the
    subscription columns selected by payments-customer identifier. *)
Definition subscription_update_only (l : list Effect) : Prop :=
  l = []
  \/ exists patch v,
       l = [call_update patch col_stripe_customer_id v]
       /\ Forall (fun cv => cv.1 = col_subscription_id
                            \/ cv.1 = col_subscription_status) patch.

(** What holds of the world a route leaves behind, whatever the request
    and the third parties' answers. *)
Record route_summary (u : Upstream) (r : Route) (rows : Table) (w : World)
    : Prop := {
  summary_auth_first :
    r <> route_stripe_webhook -> starts_with_auth (calls w) = true;
  summary_status :
    forall resp, sent w = Some resp -> status_allowed u r (status resp);
  summary_answered :
    r = route_create_checkout_session \/ r = route_stripe_webhook ->
    is_Some (sent w);
  summary_read_only :
    r = route_create_portal_session \/ r = route_gemini_proxy
    \/ r = route_mmm_proxy ->
    count is_update (calls w) = 0%nat /\ table w = rows;
  summary_identity :
    identity_of <$> table w = identity_of <$> rows;
  summary_webhook :
    r = route_stripe_webhook -> subscription_update_only (calls w)
}.

Definition handled_event_types : list string :=
  ["checkout.session.completed"; "customer.subscription.updated";
   "customer.subscription.deleted"].

(** ** Sample inputs *)

Module Sample.

Definition alice : User :=
  {| user_id := "u-1"; user_email := Some "alice@example.com" |}.

Definition alice_profile : Profile :=
  {| profile_id := "u-1";
     profile_email := Some "alice@example.com";
     stripe_customer_id := None;
     subscription_id := None;
     subscription_status := None |}.

Definition bob_profile : Profile :=
  {| profile_id := "u-2";
     profile_email := Some "bob@example.com";
     stripe_customer_id := Some "cus_B";
     subscription_id := Some "sub_B";
     subscription_status := Some "active" |}.

Definition rows : Table := [alice_profile; bob_profile].

(** All seven variables of the startup guard, and nothing else. *)
Definition env_without_webhook_secret : Env :=
  list_to_map
    [("STRIPE_SECRET_KEY", "sk_test");
     ("SUPABASE_URL", "https://db.example.com");
     ("SUPABASE_SERVICE_ROLE_KEY", "service-role");
     ("API_KEY", "gemini-key");
     ("MMM_API_KEY", "mmm-key");
     ("STRIPE_PRICE_ID", "price_1");
     ("APP_URL", "https://app.example.com")].

Definition env : Env :=
  <["STRIPE_WEBHOOK_SECRET" := "whsec_1"]> env_without_webhook_secret.

Definition subscription_deleted : Event :=
  {| event_type := "customer.subscription.deleted";
     data_object := {| customer := Some "cus_B"; mode := None;
                       subscription := None;
                       object_status := Some "canceled" |} |}.

Definition checkout_completed (customer_id mode : string) : Event :=
  {| event_type := "checkout.session.completed";
     data_object := {| customer := Some customer_id; mode := Some mode;
                       subscription := Some "sub_1";
                       object_status := Some "complete" |} |}.

(** Third parties that accept the token [tok-alice] as alice and the
    signature [good] as [event]; everything else succeeds with fixed
    answers, except for the data-store write, which is a parameter. *)
Definition upstream (event : Event) (write : DbOutcome) : Upstream :=
  {| auth_getUser := fun token =>
       match token with
       | Some "tok-alice" => (Some alice, None)
       | _ => (None, Some "invalid JWT")
       end;
     constructEvent := fun _ sig _ =>
       match sig with
       | Some "good" => Resolved event
       | _ => Rejected "No signatures found matching the expected signature"
       end;
     select_outcome := DbOk;
     update_outcome := write;
     customers_create := Resolved "cus_A";
     checkout_sessions_create := Resolved "cs_1";
     billingPortal_sessions_create := Resolved "https://billing.example.com/p";
     generateContent := Resolved "text";
     fetch := Resolved (429, Resolved (JObj [("error", JStr "rate limited")])) |}.

Definition store_error : DbOutcome :=
  DbError "permission denied for table user_profiles".

Definition request (auth sig : option string) (payload : json) : Request :=
  {| authorization := auth; stripe_signature := sig;
     req_body := payload; raw_body := "{}" |}.

Definition checkout_request : Request :=
  request (Some "Bearer tok-alice") None (JObj [("userId", JStr "u-1")]).

Definition webhook_request (sig : string) : Request :=
  request None (Some sig) (JObj []).

(** Alice asks for a checkout session, the payments provider reports bob's
    subscription as deleted, and bob's token is refused at the portal. *)
Definition exchanges : list Exchange :=
  [ {| ex_route := route_create_checkout_session;
       ex_request := checkout_request;
       ex_upstream := upstream subscription_deleted DbOk |};
    {| ex_route := route_stripe_webhook;
       ex_request := webhook_request "good";
       ex_upstream := upstream subscription_deleted DbOk |};
    {| ex_route := route_create_portal_session;
       ex_request := request (Some "Bearer tok-bob") None (JObj []);
       ex_upstream := upstream subscription_deleted DbOk |} ].

Definition bob : User :=
  {| user_id := "u-2"; user_email := Some "bob@example.com" |}.

(** [u], with [token] accepted as [user]. *)
Definition accepting (token : string) (user : User) (u : Upstream) : Upstream :=
  {| auth_getUser := fun t =>
       if bool_decide (t = Some token) then (Some user, None)
       else auth_getUser u t;
     constructEvent := constructEvent u;
     select_outcome := select_outcome u;
     update_outcome := update_outcome u;
     customers_create := customers_create u;
     checkout_sessions_create := checkout_sessions_create u;
     billingPortal_sessions_create := billingPortal_sessions_create u;
     generateContent := generateContent u;
     fetch := fetch u |}.

(** [u], with an identity provider that answers [{ user: null }] and no
    error. *)
Definition silent_provider (u : Upstream) : Upstream :=
  {| auth_getUser := fun _ => (None, None);
     constructEvent := constructEvent u;
     select_outcome := select_outcome u;
     update_outcome := update_outcome u;
     customers_create := customers_create u;
     checkout_sessions_create := checkout_sessions_create u;
     billingPortal_sessions_create := billingPortal_sessions_create u;
     generateContent := generateContent u;
     fetch := fetch u |}.

(** [u], with the given answers of the payments provider, the AI provider
    and the analytics API. *)
Definition answering (customer session portal text : Outcome string)
    (response : Outcome (Z * Outcome json)) (u : Upstream) : Upstream :=
  {| auth_getUser := auth_getUser u;
     constructEvent := constructEvent u;
     select_outcome := select_outcome u;
     update_outcome := update_outcome u;
     customers_create := customer;
     checkout_sessions_create := session;
     billingPortal_sessions_create := portal;
     generateContent := text;
     fetch := response |}.

(** A second checkout request of alice, for which the payments provider
    creates the customer [cus_A2]. *)
Definition second_upstream : Upstream :=
  answering (Resolved "cus_A2") (Resolved "cs_2") (Resolved "url")
    (Resolved "text") (Rejected "offline") (upstream subscription_deleted DbOk).

Definition two_checkouts : World * World :=
  interleaved_checkouts env (upstream subscription_deleted DbOk)
    checkout_request second_upstream checkout_request rows.

(** Two successive checkout requests of alice against a data store that
    refuses the write of the identifier and says so in the [error] field. *)
Definition refused_store_first : World :=
  run (create_checkout_session env (upstream subscription_deleted store_error)
         checkout_request) rows.

Definition refused_store_second : World :=
  run (create_checkout_session env (upstream subscription_deleted store_error)
         checkout_request) (table refused_store_first).

Definition invoice_paid : Event :=
  {| event_type := "invoice.paid";
     data_object := {| customer := Some "cus_B"; mode := None;
                       subscription := Some "sub_B";
                       object_status := Some "paid" |} |}.

Definition prompt_request (payload : json) : Request :=
  request (Some "Bearer tok-alice") None payload.

End Sample.


(** ** Proof steps *)

(** Unfolding the monad one layer, without touching the data-store
    functions, and splitting on every branch a handler takes. *)
Ltac step_handler :=
  cbv beta iota zeta
    delta [try_catch bind select_single update of_outcome headersSent send
           log ret throw table calls sent fst snd].

Ltac run_handler := step_handler; repeat (case_match; step_handler).

(** The same, from the request on: the route and the token check are
    unfolded too. *)
Ltac step_request :=
  cbv beta iota zeta
    delta [run fresh handle create_checkout_session create_portal_session
           stripe_webhook dispatch gemini_proxy mmm_proxy getSupabaseUser
           try_catch bind select_single update of_outcome headersSent send
           log ret throw table calls sent fst snd].

Ltac run_request := step_request; repeat (case_match; step_request).

(** * Properties *)

(** ** The data store *)

Lemma update_rows_lookup patch c v (rows : Table) i :
  update_rows patch c v rows !! i
  = (fun p => if eq_filter c v p then apply_patch patch p else p)
      <$> rows !! i.
Proof. unfold update_rows. apply list_lookup_fmap. Qed.

Lemma update_rows_lookup_Some patch c v (rows : Table) i p :
  rows !! i = Some p ->
  update_rows patch c v rows !! i
  = Some (if eq_filter c v p then apply_patch patch p else p).
Proof. intros Hi. by rewrite update_rows_lookup, Hi. Qed.

Lemma update_rows_no_match patch c v (rows : Table) :
  (forall p, p ∈ rows -> eq_filter c v p = false) ->
  update_rows patch c v rows = rows.
Proof.
  intros Hno. unfold update_rows.
  induction rows as [|p rows IH]; [reflexivity|].
  rewrite fmap_cons, Hno by apply list_elem_of_here.
  f_equal. apply IH. intros q Hq. apply Hno. by apply list_elem_of_further.
Qed.

Lemma eq_filter_true c v p :
  eq_filter c v p = true <-> exists x, v = Some x /\ get_col c p = Some x.
Proof.
  unfold eq_filter. split.
  - destruct v as [x|], (get_col c p) as [y|]; try discriminate.
    intros ->%String.eqb_eq. eauto.
  - intros (x & -> & ->). apply String.eqb_refl.
Qed.

Lemma unknown_customer_no_match event (rows : Table) :
  unknown_customer event rows ->
  forall p, p ∈ rows ->
    eq_filter col_stripe_customer_id (customer (data_object event)) p = false.
Proof.
  intros Hunk p Hp. apply not_true_is_false. intros Heq.
  apply eq_filter_true in Heq as (x & Hc & Hp'). simpl in Hp'.
  by apply (Hunk p x).
Qed.

Lemma strict_eq_false v literal :
  v <> Some literal -> strict_eq v literal = false.
Proof.
  intros Hne. destruct v as [s|]; [|reflexivity]. simpl.
  apply String.eqb_neq. congruence.
Qed.

(** ** Webhook ingestion *)

Lemma stripe_webhook_verified env u req event :
  verified env u req event ->
  stripe_webhook env u req
  = try_catch (dispatch u event ;; send received)
      (fun _ => send (text_response 500 "Internal Server Error")).
Proof. unfold verified, stripe_webhook. by intros ->. Qed.

(** A write that the data store answers, with or without an error, lets the
    handler go on; only a rejected promise reaches the [catch]. *)
Lemma update_run u patch c v w :
  update u patch c v w
  = match update_outcome u with
    | DbOk => (Resolved None,
               {| table := update_rows patch c v (table w);
                  calls := calls w ++ [call_update patch c v];
                  sent := sent w |})
    | DbError message => (Resolved (Some message),
               {| table := table w;
                  calls := calls w ++ [call_update patch c v];
                  sent := sent w |})
    | DbThrow message => (Rejected message,
               {| table := table w;
                  calls := calls w ++ [call_update patch c v];
                  sent := sent w |})
    end.
Proof. unfold update, bind, log. by destruct (update_outcome u). Qed.

(** C1: a webhook request whose signature does not verify is answered 400;
    nothing is dispatched: no third-party call is made and the table is
    left as it was, whatever the body holds. *)
Theorem webhook_invalid_signature env u req (rows : Table) message :
  constructEvent u (raw_body req) (stripe_signature req)
    (env !! "STRIPE_WEBHOOK_SECRET") = Rejected message ->
  run (stripe_webhook env u req) rows
  = {| table := rows; calls := [];
       sent := Some (text_response 400 ("Webhook Error: " +:+ message)) |}.
Proof. intros Hsig. unfold run, stripe_webhook. by rewrite Hsig. Qed.

Lemma webhook_invalid_signature_witness :
  run (stripe_webhook Sample.env
         (Sample.upstream Sample.subscription_deleted DbOk)
         (Sample.webhook_request "forged")) Sample.rows
  = {| table := Sample.rows; calls := [];
       sent := Some (text_response 400
                 "Webhook Error: No signatures found matching the expected signature") |}.
Proof.
  apply (webhook_invalid_signature Sample.env
           (Sample.upstream Sample.subscription_deleted DbOk)
           (Sample.webhook_request "forged") Sample.rows).
  reflexivity.
Defined.

(** C10: a verified [checkout.session.completed] event whose mode is not
    [subscription] is acknowledged with 200 and [{ received: true }]; no
    data-store request is issued and the table is left as it was. *)
Theorem checkout_completed_other_mode env u req (rows : Table) event :
  verified env u req event ->
  event_type event = "checkout.session.completed" ->
  mode (data_object event) <> Some "subscription" ->
  run (stripe_webhook env u req) rows
  = {| table := rows; calls := []; sent := Some received |}.
Proof.
  intros Hv Hty Hmode. rewrite (stripe_webhook_verified _ _ _ _ Hv).
  unfold run, try_catch, bind, dispatch.
  by rewrite Hty, (strict_eq_false _ _ Hmode).
Qed.

Lemma checkout_completed_other_mode_witness :
  run (stripe_webhook Sample.env
         (Sample.upstream (Sample.checkout_completed "cus_B" "payment") DbOk)
         (Sample.webhook_request "good")) Sample.rows
  = {| table := Sample.rows; calls := []; sent := Some received |}.
Proof.
  apply (checkout_completed_other_mode Sample.env
           (Sample.upstream (Sample.checkout_completed "cus_B" "payment") DbOk)
           (Sample.webhook_request "good") Sample.rows
           (Sample.checkout_completed "cus_B" "payment")).
  - reflexivity.
  - reflexivity.
  - discriminate.
Defined.

(** C8: a verified [checkout.session.completed] event whose customer id is
    that of no stored profile leaves every profile as it was, and is
    acknowledged with 200 and [{ received: true }] whenever the data store
    answers the request (an exception from the data store is the 500 of the
    [catch] block). *)
Theorem checkout_completed_unknown_customer env u req (rows : Table) event :
  verified env u req event ->
  event_type event = "checkout.session.completed" ->
  unknown_customer event rows ->
  table (run (stripe_webhook env u req) rows) = rows
  /\ ((forall message, update_outcome u <> DbThrow message) ->
      sent (run (stripe_webhook env u req) rows) = Some received).
Proof.
  intros Hv Hty Hunk. rewrite (stripe_webhook_verified _ _ _ _ Hv).
  unfold run, try_catch, bind, dispatch. rewrite Hty.
  change ("checkout.session.completed" =? "checkout.session.completed")%string
    with true. cbv iota.
  destruct (strict_eq _ _); [|by split].
  unfold bind. rewrite update_run.
  destruct (update_outcome u) as [|m|m]; simpl.
  - rewrite update_rows_no_match by by apply unknown_customer_no_match.
    by split.
  - by split.
  - split; [reflexivity|]. intros Hno. by destruct (Hno m).
Qed.

Lemma checkout_completed_unknown_customer_witness :
  table (run (stripe_webhook Sample.env
                (Sample.upstream (Sample.checkout_completed "cus_X" "subscription") DbOk)
                (Sample.webhook_request "good")) Sample.rows) = Sample.rows
  /\ sent (run (stripe_webhook Sample.env
                  (Sample.upstream (Sample.checkout_completed "cus_X" "subscription") DbOk)
                  (Sample.webhook_request "good")) Sample.rows) = Some received.
Proof.
  pose proof (checkout_completed_unknown_customer Sample.env
           (Sample.upstream (Sample.checkout_completed "cus_X" "subscription") DbOk)
           (Sample.webhook_request "good") Sample.rows
           (Sample.checkout_completed "cus_X" "subscription")) as H.
  destruct H as [Ht Hs].
  - reflexivity.
  - reflexivity.
  - intros p c Hp [= <-]. unfold Sample.rows in Hp.
    apply list_elem_of_In in Hp. simpl in Hp.
    destruct Hp as [<-|[<-|[]]]; discriminate.
  - split; [exact Ht|]. apply Hs. discriminate.
Defined.

(** C7: a verified [customer.subscription.updated] or [.deleted] event whose
    customer id is that of a stored profile sets that profile's subscription
    status to the status string of the event, and leaves its identifier,
    email, payments-customer identifier and subscription identifier as they
    were (the data store applying the write it is sent). *)
Theorem subscription_event_sets_status env u req (rows : Table) event c s i p :
  verified env u req event ->
  event_type event = "customer.subscription.updated"
  \/ event_type event = "customer.subscription.deleted" ->
  customer (data_object event) = Some c ->
  object_status (data_object event) = Some s ->
  update_outcome u = DbOk ->
  rows !! i = Some p ->
  stripe_customer_id p = Some c ->
  table (run (stripe_webhook env u req) rows) !! i
  = Some {| profile_id := profile_id p;
            profile_email := profile_email p;
            stripe_customer_id := stripe_customer_id p;
            subscription_id := subscription_id p;
            subscription_status := Some s |}.
Proof.
  intros Hv Hty Hc Hs Hdb Hi Hp. rewrite (stripe_webhook_verified _ _ _ _ Hv).
  assert (dispatch u event
          = (update u [(col_subscription_status, Some s)]
               col_stripe_customer_id (Some c) ;; ret tt)) as ->.
  { unfold dispatch. rewrite Hc, Hs. by destruct Hty as [-> | ->]. }
  unfold run, try_catch, bind. rewrite update_run, Hdb. simpl.
  rewrite update_rows_lookup, Hi. simpl.
  unfold eq_filter. simpl. rewrite Hp, String.eqb_refl. reflexivity.
Qed.

Lemma subscription_event_sets_status_witness :
  table (run (stripe_webhook Sample.env
                (Sample.upstream Sample.subscription_deleted DbOk)
                (Sample.webhook_request "good")) Sample.rows) !! 1%nat
  = Some {| profile_id := "u-2";
            profile_email := Some "bob@example.com";
            stripe_customer_id := Some "cus_B";
            subscription_id := Some "sub_B";
            subscription_status := Some "canceled" |}.
Proof.
  apply (subscription_event_sets_status Sample.env
           (Sample.upstream Sample.subscription_deleted DbOk)
           (Sample.webhook_request "good") Sample.rows
           Sample.subscription_deleted "cus_B" "canceled" 1%nat
           Sample.bob_profile).
  - reflexivity.
  - right. reflexivity.
  - reflexivity.
  - reflexivity.
  - reflexivity.
  - reflexivity.
  - reflexivity.
Defined.

(** X27: The same event leaves the profiles of other customers as they were. *)
Lemma subscription_event_frame env u req (rows : Table) event i p :
  verified env u req event ->
  event_type event = "customer.subscription.updated"
  \/ event_type event = "customer.subscription.deleted" ->
  rows !! i = Some p ->
  stripe_customer_id p <> customer (data_object event) ->
  table (run (stripe_webhook env u req) rows) !! i = Some p.
Proof.
  intros Hv Hty Hi Hp. rewrite (stripe_webhook_verified _ _ _ _ Hv).
  assert (dispatch u event
          = (update u [(col_subscription_status, object_status (data_object event))]
               col_stripe_customer_id (customer (data_object event)) ;; ret tt))
    as ->.
  { unfold dispatch. by destruct Hty as [-> | ->]. }
  unfold run, try_catch, bind. rewrite update_run.
  destruct (update_outcome u); simpl; try done.
  rewrite update_rows_lookup, Hi. simpl.
  destruct (eq_filter _ _ _) eqn:Heq; [|done].
  apply eq_filter_true in Heq as (x & Hx & Hx'). simpl in Hx'. congruence.
Qed.

(** An exception from the data store while projecting an event is the 500
    of the [catch] block. *)
Lemma webhook_store_exception env u req (rows : Table) event message :
  verified env u req event ->
  event_type event = "customer.subscription.updated"
  \/ event_type event = "customer.subscription.deleted" ->
  update_outcome u = DbThrow message ->
  sent (run (stripe_webhook env u req) rows)
  = Some (text_response 500 "Internal Server Error").
Proof.
  intros Hv Hty Hdb. rewrite (stripe_webhook_verified _ _ _ _ Hv).
  unfold dispatch, run, try_catch.
  destruct Hty as [-> | ->]; simpl; unfold bind; by rewrite update_run, Hdb.
Qed.

(** C3, at the input where the code departs from it: a verified
    [customer.subscription.deleted] event for a known customer, with a
    data-store write that fails and is reported in the [error] field of its
    result.  The handler does not read that field: it answers 200 with
    [{ received: true }], and the profile keeps its former status. *)
Theorem webhook_store_error_acknowledged :
  verified Sample.env
    (Sample.upstream Sample.subscription_deleted Sample.store_error)
    (Sample.webhook_request "good") Sample.subscription_deleted
  /\ run (stripe_webhook Sample.env
            (Sample.upstream Sample.subscription_deleted Sample.store_error)
            (Sample.webhook_request "good")) Sample.rows
     = {| table := Sample.rows;
          calls := [call_update [(col_subscription_status, Some "canceled")]
                      col_stripe_customer_id (Some "cus_B")];
          sent := Some received |}.
Proof. split; reflexivity. Qed.

(** ** Startup *)

(** The seven variables the guard names stop the process when absent. *)
Lemma startup_refuses_missing (env : Env) name :
  name ∈ guarded_variables ->
  env !! name = None ->
  startup env = Exit 1.
Proof.
  intros Hin Hmiss. unfold startup.
  assert (missing_critical env = true) as ->; [|reflexivity].
  unfold missing_critical, env_missing.
  apply list_elem_of_In in Hin. simpl in Hin.
  repeat (destruct Hin as [<- | Hin];
          [rewrite Hmiss; simpl; by rewrite ?orb_true_r|]).
  destruct Hin.
Qed.

(** C2, at the input where the code departs from it: with the seven guarded
    variables set and the webhook secret absent, the process does not exit;
    it listens on the default port. *)
Theorem startup_without_webhook_secret :
  Sample.env_without_webhook_secret !! "STRIPE_WEBHOOK_SECRET" = None
  /\ startup Sample.env_without_webhook_secret = Listening (PortNumber 3001).
Proof. split; vm_compute; reflexivity. Qed.

(** ** Token verification *)

Lemma getSupabaseUser_failure u req (rows : Table) :
  auth_failure u req ->
  exists r cs,
    getSupabaseUser u req (fresh rows)
    = (Resolved None, {| table := rows; calls := cs; sent := Some r |})
    /\ status r = 401
    /\ Forall (fun e => is_auth_call e = true) cs.
Proof.
  intros [Hh | header Hh Hpre | header message Hh Hpre Hrej];
    unfold getSupabaseUser, bind, send, ret, log, fresh; rewrite Hh.
  - eexists _, []. by repeat split.
  - rewrite Hpre, orb_true_r. eexists _, []. by repeat split.
  - rewrite Hpre.
    assert (truthy_str (Some header) = true) as ->.
    { destruct header; [discriminate|reflexivity]. }
    simpl. destruct (auth_getUser u _) as [user error]. simpl in Hrej.
    subst error. simpl. eexists _, [_]. repeat split. by repeat constructor.
Qed.

Lemma getSupabaseUser_authenticated u req (rows : Table) user :
  authenticated u req user ->
  exists token,
    getSupabaseUser u req (fresh rows)
    = (Resolved (Some user),
       {| table := rows; calls := [call_auth_getUser token]; sent := None |}).
Proof.
  intros (header & Hh & Hpre & Hok).
  unfold getSupabaseUser, bind, send, ret, log, fresh. rewrite Hh, Hpre.
  assert (truthy_str (Some header) = true) as ->.
  { destruct header; [discriminate|reflexivity]. }
  simpl. rewrite Hok. eauto.
Qed.

(** C6: on every route but the webhook, a request whose Authorization
    header is absent or malformed, or whose token the identity provider
    rejects, is answered 401; the table is left as it was, and no
    third-party call is made apart from the verification of the token. *)
Theorem unauthenticated_request env u r req (rows : Table) :
  r <> route_stripe_webhook ->
  auth_failure u req ->
  status <$> sent (run (handle env u r req) rows) = Some 401
  /\ table (run (handle env u r req) rows) = rows
  /\ Forall (fun e => is_auth_call e = true)
       (calls (run (handle env u r req) rows)).
Proof.
  intros Hr Hfail.
  destruct (getSupabaseUser_failure u req rows Hfail)
    as (resp & cs & Hrun & Hst & Hcs).
  destruct r; try done;
    unfold run, handle, create_checkout_session, create_portal_session,
      gemini_proxy, mmm_proxy, bind;
    rewrite Hrun; simpl; by rewrite Hst.
Qed.

Lemma unauthenticated_request_witness :
  status <$> sent (run (handle Sample.env
                          (Sample.upstream Sample.subscription_deleted DbOk)
                          route_create_checkout_session
                          (Sample.request (Some "Bearer tok-mallory") None
                             (JObj [("userId", JStr "u-1")])))
                     Sample.rows) = Some 401.
Proof.
  apply (unauthenticated_request Sample.env
           (Sample.upstream Sample.subscription_deleted DbOk)
           route_create_checkout_session
           (Sample.request (Some "Bearer tok-mallory") None
              (JObj [("userId", JStr "u-1")]))
           Sample.rows).
  - discriminate.
  - apply (token_rejected _ _ "Bearer tok-mallory" "invalid JWT");
      reflexivity.
Defined.

(** ** Analytics relay *)

Lemma started_has_mmm_key (env : Env) :
  missing_critical env = false -> truthy_str (env !! "MMM_API_KEY") = true.
Proof.
  unfold missing_critical, env_missing. intros H.
  repeat (apply orb_false_elim in H as [H ?]).
  by apply negb_false_iff.
Qed.

(** C9: for an authenticated request to the analytics relay of a started
    server, when the upstream call completes, that is, [fetch] resolves to a
    response with status [st] and reading its body gives the JSON value
    [data], the response is [data] with status [st], whatever [st] is. *)
Theorem mmm_proxy_pass_through env u req (rows : Table) user st data :
  missing_critical env = false ->
  authenticated u req user ->
  fetch u = Resolved (st, Resolved data) ->
  sent (run (mmm_proxy env u req) rows) = Some (json_response st data).
Proof.
  intros Henv Hauth Hfetch.
  destruct (getSupabaseUser_authenticated u req rows user Hauth) as (tok & Hrun).
  unfold run, mmm_proxy, bind at 1. rewrite Hrun.
  rewrite (started_has_mmm_key env Henv). simpl.
  unfold try_catch, bind, log, of_outcome. simpl. by rewrite Hfetch.
Qed.

Lemma mmm_proxy_pass_through_witness :
  sent (run (mmm_proxy Sample.env
               (Sample.upstream Sample.subscription_deleted DbOk)
               Sample.checkout_request) Sample.rows)
  = Some (json_response 429 (JObj [("error", JStr "rate limited")])).
Proof.
  apply (mmm_proxy_pass_through Sample.env
           (Sample.upstream Sample.subscription_deleted DbOk)
           Sample.checkout_request Sample.rows Sample.alice).
  - vm_compute. reflexivity.
  - exists "Bearer tok-alice". repeat split.
  - reflexivity.
Defined.

(** X26: When [fetch] rejects, or the body of the upstream response is not JSON,
    the [catch] block answers 500 with the relay's own envelope. *)
Lemma mmm_proxy_upstream_failure env u req (rows : Table) user message :
  missing_critical env = false ->
  authenticated u req user ->
  fetch u = Rejected message
  \/ (exists st, fetch u = Resolved (st, Rejected message)) ->
  sent (run (mmm_proxy env u req) rows)
  = Some (json_response 500
            (JObj [("error", JStr "Failed to proxy request to MMM service.");
                   ("details", JStr message)])).
Proof.
  intros Henv Hauth Hfetch.
  destruct (getSupabaseUser_authenticated u req rows user Hauth) as (tok & Hrun).
  unfold run, mmm_proxy, bind at 1. rewrite Hrun.
  rewrite (started_has_mmm_key env Henv). simpl.
  unfold try_catch, bind, log, of_outcome. simpl.
  by destruct Hfetch as [-> | [st ->]].
Qed.

(** ** The payments-customer identifier *)

Lemma keeps_customer_ids_refl (rows : Table) : keeps_customer_ids rows rows.
Proof. intros i p Hi _. eauto. Qed.

Lemma keeps_customer_ids_trans (rows1 rows2 rows3 : Table) :
  keeps_customer_ids rows1 rows2 ->
  keeps_customer_ids rows2 rows3 ->
  keeps_customer_ids rows1 rows3.
Proof.
  intros H12 H23 i p Hi Hset.
  destruct (H12 i p Hi Hset) as (p2 & Hi2 & Hid2 & Hc2).
  destruct (H23 i p2 Hi2) as (p3 & Hi3 & Hid3 & Hc3); [by rewrite Hc2|].
  exists p3. repeat split; congruence.
Qed.

(** A patch that names neither the primary key nor the payments-customer
    identifier leaves both as they were. *)
Lemma apply_patch_other_columns (patch : Patch) p :
  Forall (fun cv => cv.1 <> col_id /\ cv.1 <> col_stripe_customer_id) patch ->
  profile_id (apply_patch patch p) = profile_id p
  /\ stripe_customer_id (apply_patch patch p) = stripe_customer_id p.
Proof.
  intros Hpatch. revert p.
  induction Hpatch as [| [c v] patch [Hc1 Hc2] _ IH]; intros p; [done|].
  simpl in *. destruct (IH (set_col c v p)) as [-> ->].
  by destruct c.
Qed.

Lemma update_other_columns_keeps (patch : Patch) c v (rows : Table) :
  Forall (fun cv => cv.1 <> col_id /\ cv.1 <> col_stripe_customer_id) patch ->
  keeps_customer_ids rows (update_rows patch c v rows).
Proof.
  intros Hpatch i p Hi _. rewrite (update_rows_lookup_Some _ _ _ _ _ _ Hi).
  destruct (eq_filter c v p); eauto.
  destruct (apply_patch_other_columns patch p Hpatch). eauto.
Qed.

(** [.single()] gives the only row that the filter selects. *)
Lemma single_row_unique c v (rows : Table) row error p :
  single_row c v rows = (Some row, error) ->
  p ∈ rows -> eq_filter c v p = true -> p = row.
Proof.
  unfold single_row. intros Hsingle Hp Hmatch.
  assert (p ∈ filter (fun p => eq_filter c v p = true) rows) as Hin
    by by apply list_elem_of_filter.
  destruct (filter _ rows) as [|q [|? ?]]; try discriminate.
  injection Hsingle as <- _. by apply list_elem_of_singleton.
Qed.

(** Storing an identifier on the row of a user who has none touches no row
    that has one. *)
Lemma store_customer_id_keeps (rows : Table) userId profile error customer_id :
  single_row col_id (Some userId) rows = (Some profile, error) ->
  truthy_str (stripe_customer_id profile) = false ->
  keeps_customer_ids rows
    (update_rows [(col_stripe_customer_id, Some customer_id)] col_id
       (Some userId) rows).
Proof.
  intros Hsingle Hnone i p Hi Hset.
  rewrite (update_rows_lookup_Some _ _ _ _ _ _ Hi).
  destruct (eq_filter col_id (Some userId) p) eqn:Hmatch; [|eauto].
  assert (p = profile) as ->; [|congruence].
  apply (single_row_unique col_id (Some userId) rows profile error p Hsingle);
    [by eapply list_elem_of_lookup_2 | exact Hmatch].
Qed.

Lemma getSupabaseUser_table u req w :
  exists user w',
    getSupabaseUser u req w = (Resolved user, w') /\ table w' = table w.
Proof.
  unfold getSupabaseUser, bind, send, ret, log.
  destruct (authorization req) as [header|]; [|eauto].
  destruct (_ || _); [eauto|].
  destruct (auth_getUser u _) as [user [message|]]; eauto.
Qed.

Lemma create_checkout_session_keeps env u req (rows : Table) :
  keeps_customer_ids rows (table (run (create_checkout_session env u req) rows)).
Proof.
  unfold run, create_checkout_session, bind at 1.
  destruct (getSupabaseUser_table u req (fresh rows)) as (user & w & -> & Hw).
  destruct w as [t cs s]. simpl in Hw. subst t.
  run_handler; simplify_eq; try apply keeps_customer_ids_refl;
    by eapply store_customer_id_keeps.
Qed.

(** The portal and both proxies never write to the table. *)
Lemma read_only_routes env u r req (rows : Table) :
  r = route_create_portal_session \/ r = route_gemini_proxy
  \/ r = route_mmm_proxy ->
  table (run (handle env u r req) rows) = rows.
Proof.
  intros [-> | [-> | ->]];
    unfold run, handle, create_portal_session, gemini_proxy, mmm_proxy,
      bind at 1;
    destruct (getSupabaseUser_table u req (fresh rows)) as (user & w & -> & Hw);
    destruct w as [t cs s]; simpl in Hw; subst t;
    run_handler; by simplify_eq.
Qed.

Lemma stripe_webhook_keeps env u req (rows : Table) :
  keeps_customer_ids rows (table (run (stripe_webhook env u req) rows)).
Proof.
  unfold run, stripe_webhook, dispatch, fresh.
  run_handler; simplify_eq; try apply keeps_customer_ids_refl;
    apply update_other_columns_keeps; repeat constructor; discriminate.
Qed.

Lemma handle_keeps env u r req (rows : Table) :
  keeps_customer_ids rows (table (run (handle env u r req) rows)).
Proof.
  destruct r.
  - apply create_checkout_session_keeps.
  - rewrite read_only_routes by auto. apply keeps_customer_ids_refl.
  - apply stripe_webhook_keeps.
  - rewrite read_only_routes by auto. apply keeps_customer_ids_refl.
  - rewrite read_only_routes by auto. apply keeps_customer_ids_refl.
Qed.

(** X30: when the requests are handled one after another, each to its end
    before the next begins, then whatever their sequence, on any routes and
    whatever the third parties answer, a profile whose payments-customer
    identifier is set (a non-empty string) keeps that identifier: it is
    neither cleared nor replaced. *)
Theorem customer_id_never_cleared env exchanges (rows : Table) i p :
  rows !! i = Some p ->
  truthy_str (stripe_customer_id p) = true ->
  exists p',
    serve env exchanges rows !! i = Some p'
    /\ profile_id p' = profile_id p
    /\ stripe_customer_id p' = stripe_customer_id p.
Proof.
  revert rows p. induction exchanges as [|ex rest IH]; intros rows p Hi Hset.
  - exists p. by repeat split.
  - simpl.
    destruct (handle_keeps env (ex_upstream ex) (ex_route ex) (ex_request ex)
                rows i p Hi Hset) as (p1 & Hi1 & Hid1 & Hc1).
    destruct (IH _ p1 Hi1) as (p2 & Hi2 & Hid2 & Hc2); [by rewrite Hc1|].
    exists p2. repeat split; congruence.
Qed.

Lemma customer_id_never_cleared_witness :
  exists p',
    serve Sample.env Sample.exchanges Sample.rows !! 1%nat = Some p'
    /\ profile_id p' = "u-2"
    /\ stripe_customer_id p' = Some "cus_B".
Proof.
  apply (customer_id_never_cleared Sample.env Sample.exchanges Sample.rows
           1%nat Sample.bob_profile); reflexivity.
Defined.

(** ** Checkout sessions *)

Lemma eq_filter_id_apply_patch (patch : Patch) v p :
  profile_id (apply_patch patch p) = profile_id p ->
  eq_filter col_id v (apply_patch patch p) = eq_filter col_id v p.
Proof. unfold eq_filter. simpl. by intros ->. Qed.

(** An update that keeps the primary key selects, afterwards, the rows it
    has just written. *)
Lemma filter_update_rows_id (patch : Patch) v (rows : Table) :
  (forall p, profile_id (apply_patch patch p) = profile_id p) ->
  filter (fun p => eq_filter col_id v p = true)
    (update_rows patch col_id v rows)
  = apply_patch patch
      <$> filter (fun p => eq_filter col_id v p = true) rows.
Proof.
  intros Hid. unfold update_rows.
  induction rows as [|p rows IH]; [reflexivity|].
  rewrite fmap_cons, !filter_cons, IH.
  destruct (eq_filter col_id v p) eqn:Hmatch.
  - rewrite eq_filter_id_apply_patch, Hmatch by apply Hid.
    rewrite !decide_True by done. by rewrite fmap_cons.
  - rewrite Hmatch. by rewrite !decide_False by done.
Qed.

Lemma single_row_after_store (rows : Table) userId profile error customer_id :
  single_row col_id (Some userId) rows = (Some profile, error) ->
  single_row col_id (Some userId)
    (update_rows [(col_stripe_customer_id, Some customer_id)] col_id
       (Some userId) rows)
  = (Some (set_col col_stripe_customer_id (Some customer_id) profile), None).
Proof.
  unfold single_row. rewrite filter_update_rows_id by done.
  destruct (filter _ rows) as [|q [|? ?]]; try discriminate.
  by intros [= ->].
Qed.

Lemma checkout_creates_customer env u req (rows : Table) user profile
    customer_id session :
  own_checkout u req user ->
  single_row col_id (Some (user_id user)) rows = (Some profile, None) ->
  truthy_str (stripe_customer_id profile) = false ->
  select_outcome u = DbOk ->
  customers_create u = Resolved customer_id ->
  update_outcome u = DbOk ->
  checkout_sessions_create u = Resolved session ->
  exists token,
    run (create_checkout_session env u req) rows
    = {| table := update_rows [(col_stripe_customer_id, Some customer_id)]
                    col_id (Some (user_id user)) rows;
         calls :=
           [call_auth_getUser token;
            call_select_single col_id (Some (user_id user));
            call_customers_create
              (or_else (profile_email profile) (user_email user))
              (user_id user);
            call_update [(col_stripe_customer_id, Some customer_id)] col_id
              (Some (user_id user));
            call_checkout_sessions_create (Some customer_id)
              (env !! "STRIPE_PRICE_ID")
              (template (env !! "APP_URL") +:+ "?payment_success=true")
              (template (env !! "APP_URL") +:+ "?payment_cancel=true")];
         sent := Some (session_created session) |}.
Proof.
  intros [Hauth Hbody] Hsingle Hnone Hsel Hcus Hupd Hses.
  destruct (getSupabaseUser_authenticated u req rows user Hauth) as (tok & Hrun).
  exists tok. unfold run, create_checkout_session, bind at 1.
  rewrite Hrun, Hbody, String.eqb_refl. cbn [negb].
  step_handler. rewrite Hsel. step_handler. rewrite Hsingle, Hnone.
  step_handler. rewrite Hcus. step_handler. rewrite Hupd. step_handler.
  rewrite Hses. reflexivity.
Qed.

Lemma checkout_reuses_customer env u req (rows : Table) user profile session :
  own_checkout u req user ->
  single_row col_id (Some (user_id user)) rows = (Some profile, None) ->
  truthy_str (stripe_customer_id profile) = true ->
  select_outcome u = DbOk ->
  checkout_sessions_create u = Resolved session ->
  exists token,
    run (create_checkout_session env u req) rows
    = {| table := rows;
         calls :=
           [call_auth_getUser token;
            call_select_single col_id (Some (user_id user));
            call_checkout_sessions_create (stripe_customer_id profile)
              (env !! "STRIPE_PRICE_ID")
              (template (env !! "APP_URL") +:+ "?payment_success=true")
              (template (env !! "APP_URL") +:+ "?payment_cancel=true")];
         sent := Some (session_created session) |}.
Proof.
  intros [Hauth Hbody] Hsingle Hset Hsel Hses.
  destruct (getSupabaseUser_authenticated u req rows user Hauth) as (tok & Hrun).
  exists tok. unfold run, create_checkout_session, bind at 1.
  rewrite Hrun, Hbody, String.eqb_refl. cbn [negb].
  step_handler. rewrite Hsel. step_handler. rewrite Hsingle, Hset.
  step_handler. rewrite Hses. reflexivity.
Qed.

(** X29: for a user whose profile has no payments-customer identifier, when
    every step of a first checkout request succeeds and the data store
    applies the write (the profile is read, the customer is created under a
    non-empty identifier and stored, the session is created), a second
    request handled after it makes no customer creation and no store: the
    two requests make one of each between them, and the second creates its
    session for the stored identifier, whatever a second customer creation
    or store would have answered. *)
Theorem checkout_customer_created_once env u1 u2 req1 req2 (rows : Table)
    user profile customer_id session1 session2 :
  own_checkout u1 req1 user ->
  own_checkout u2 req2 user ->
  single_row col_id (Some (user_id user)) rows = (Some profile, None) ->
  truthy_str (stripe_customer_id profile) = false ->
  select_outcome u1 = DbOk ->
  customers_create u1 = Resolved customer_id ->
  customer_id <> "" ->
  update_outcome u1 = DbOk ->
  checkout_sessions_create u1 = Resolved session1 ->
  select_outcome u2 = DbOk ->
  checkout_sessions_create u2 = Resolved session2 ->
  let w1 := run (create_checkout_session env u1 req1) rows in
  let w2 := run (create_checkout_session env u2 req2) (table w1) in
  sent w1 = Some (session_created session1)
  /\ sent w2 = Some (session_created session2)
  /\ count is_customers_create (calls w1 ++ calls w2) = 1%nat
  /\ count is_update (calls w1 ++ calls w2) = 1%nat
  /\ call_checkout_sessions_create (Some customer_id)
       (env !! "STRIPE_PRICE_ID")
       (template (env !! "APP_URL") +:+ "?payment_success=true")
       (template (env !! "APP_URL") +:+ "?payment_cancel=true") ∈ calls w2
  /\ table w2 = table w1
  /\ single_row col_id (Some (user_id user)) (table w2)
     = (Some (set_col col_stripe_customer_id (Some customer_id) profile), None).
Proof.
  intros Hreq1 Hreq2 Hsingle Hnone Hsel1 Hcus Hne Hupd Hses1 Hsel2 Hses2.
  destruct (checkout_creates_customer env u1 req1 rows user profile customer_id
              session1 Hreq1 Hsingle Hnone Hsel1 Hcus Hupd Hses1)
    as (tok1 & Hrun1).
  pose proof (single_row_after_store rows (user_id user) profile None
                customer_id Hsingle) as Hstored.
  intros w1 w2. subst w1 w2. rewrite Hrun1. cbn [table calls sent].
  destruct (checkout_reuses_customer env u2 req2 _ user _ session2
              Hreq2 Hstored) as (tok2 & Hrun2);
    [by apply negb_true_iff, String.eqb_neq | done | done |].
  rewrite Hrun2. cbn [table calls sent].
  repeat split; try done.
  cbn [set_col stripe_customer_id]. set_solver.
Qed.

Lemma checkout_customer_created_once_witness :
  count is_customers_create
    (calls (run (create_checkout_session Sample.env
                   (Sample.upstream Sample.subscription_deleted DbOk)
                   Sample.checkout_request) Sample.rows)
     ++ calls (run (create_checkout_session Sample.env
                      (Sample.upstream Sample.subscription_deleted DbOk)
                      Sample.checkout_request)
                 (table (run (create_checkout_session Sample.env
                                (Sample.upstream Sample.subscription_deleted DbOk)
                                Sample.checkout_request) Sample.rows))))
  = 1%nat.
Proof.
  assert (own_checkout (Sample.upstream Sample.subscription_deleted DbOk)
            Sample.checkout_request Sample.alice) as Hreq.
  { split; [|reflexivity]. exists "Bearer tok-alice". by repeat split. }
  destruct (checkout_customer_created_once Sample.env
              (Sample.upstream Sample.subscription_deleted DbOk)
              (Sample.upstream Sample.subscription_deleted DbOk)
              Sample.checkout_request Sample.checkout_request Sample.rows
              Sample.alice Sample.alice_profile "cus_A" "cs_1" "cs_1")
    as (_ & _ & Hcreate & _);
    [exact Hreq | exact Hreq | reflexivity | reflexivity | reflexivity
    | reflexivity | discriminate | reflexivity | reflexivity | reflexivity
    | reflexivity | exact Hcreate].
Defined.

(** C4, at the input where the code departs from it: two successive
    checkout requests of a user whose profile has no payments-customer
    identifier, handled one after the other, with a data store that refuses
    the write of line 88 and reports it in the [error] field of the result.
    The handler does not read that field: both requests are answered 200
    with a session, the customer is created twice, the store is attempted
    twice, and the profile still has no identifier. *)
Theorem checkout_store_error_creates_twice :
  sent Sample.refused_store_first = Some (session_created "cs_1")
  /\ sent Sample.refused_store_second = Some (session_created "cs_1")
  /\ count is_customers_create
       (calls Sample.refused_store_first ++ calls Sample.refused_store_second)
     = 2%nat
  /\ count is_update
       (calls Sample.refused_store_first ++ calls Sample.refused_store_second)
     = 2%nat
  /\ table Sample.refused_store_second = Sample.rows
  /\ stripe_customer_id <$> Sample.rows !! 0%nat = Some None.
Proof. by repeat split. Qed.

(** ** Checkout requests that overlap *)

Lemma bind_ext (A B : Type) (m : M A) (f g : A -> M B) w :
  (forall a w', f a w' = g a w') -> bind m f w = bind m g w.
Proof. intros Hfg. unfold bind. by destruct (m w) as [[a|message] w']. Qed.

Lemma bind_assoc (A B C : Type) (m : M A) (f : A -> M B) (g : B -> M C) w :
  bind (bind m f) g w = bind m (fun x => bind (f x) g) w.
Proof. unfold bind. by destruct (m w) as [[a|message] w']. Qed.

Lemma bind_unfold (A B : Type) (m : M A) (k : A -> M B) w :
  bind m k w
  = match m w with
    | (Resolved a, w') => k a w'
    | (Rejected message, w') => (Rejected message, w')
    end.
Proof. reflexivity. Qed.

Lemma try_catch_bind (A B : Type) (m : M A) (k : A -> M B) handler w :
  try_catch (bind m k) handler w
  = match m w with
    | (Resolved a, w') => try_catch (k a) handler w'
    | (Rejected message, w') => handler message w'
    end.
Proof. unfold try_catch, bind. by destruct (m w) as [[a|message] w']. Qed.

(** Run on the same world with nothing in between, the two parts of the
    checkout handler are the handler. *)
Lemma create_checkout_session_resumes env u req w :
  create_checkout_session env u req w
  = (do reading <- checkout_read u req ;
     match reading with
     | Some reading => checkout_resume env u reading
     | None => ret tt
     end) w.
Proof.
  unfold create_checkout_session, checkout_read. rewrite bind_assoc.
  apply bind_ext. clear w. intros user w.
  assert (forall w0 : World,
            (do already <- headersSent ;
             if already then ret tt
             else send (json_response 403
                          (JObj [("error",
                                  JStr "User token does not match requested user ID.")]))) w0
            = (do reading <-
                 ((do already <- headersSent ;
                   if already then ret tt
                   else send (json_response 403
                                (JObj [("error",
                                        JStr "User token does not match requested user ID.")]))) ;;
                  ret (@None Reading)) ;
               match reading with
               | Some reading => checkout_resume env u reading
               | None => ret tt
               end) w0) as Hforbidden.
  { intros w0. unfold bind, headersSent, send, ret.
    by destruct (bool_decide _). }
  destruct user as [user|]; [|apply Hforbidden].
  destruct (get_prop (req_body req) "userId") as [[| | |userId| |]|];
    try apply Hforbidden.
  destruct (negb _); [apply Hforbidden|].
  rewrite bind_unfold, !try_catch_bind.
  destruct (select_single u col_id (Some userId) w)
    as [[[profile profileError]|message] w']; reflexivity.
Qed.

(** The same for a whole request: reading, then going on at once, on the
    table the read left. *)
Lemma run_create_checkout_session_resumes env u req (rows : Table) :
  run (create_checkout_session env u req) rows
  = snd (checkout_continue env u (fst (checkout_read u req (fresh rows)))
           (snd (checkout_read u req (fresh rows)))).
Proof.
  unfold run. rewrite create_checkout_session_resumes, bind_unfold.
  unfold checkout_continue.
  by destruct (checkout_read u req (fresh rows)) as [[[reading|]|message] w].
Qed.

(** C5, at the input where the code departs from it: two checkout requests
    of one user whose profile has no payments-customer identifier, the read
    of the second resolving before the write of the first.  When the first
    request ends, the profile carries the identifier [cus_A]; the second
    request, which read the profile without an identifier, then stores
    [cus_A2] over it.  Both are answered 200 with a session. *)
Theorem interleaved_checkouts_overwrite :
  stripe_customer_id <$> Sample.rows !! 0%nat = Some None
  /\ stripe_customer_id <$> table (fst Sample.two_checkouts) !! 0%nat
     = Some (Some "cus_A")
  /\ stripe_customer_id <$> table (snd Sample.two_checkouts) !! 0%nat
     = Some (Some "cus_A2")
  /\ sent (fst Sample.two_checkouts) = Some (session_created "cs_1")
  /\ sent (snd Sample.two_checkouts) = Some (session_created "cs_2").
Proof. by repeat split. Qed.

(** * Further properties of the handlers *)

(** ** The bearer token *)

Lemma split_on_no_sep sep a :
  has_char sep a = false -> split_on sep a = [a].
Proof.
  induction a as [|c a IH]; [reflexivity|]. simpl.
  intros [Hc Ha]%orb_false_elim. by rewrite Hc, IH.
Qed.

Lemma split_on_first sep a b :
  has_char sep a = false ->
  split_on sep (a +:+ String sep b) = a :: split_on sep b.
Proof.
  induction a as [|c a IH]; simpl.
  - intros _. by rewrite Ascii.eqb_refl.
  - intros [Hc Ha]%orb_false_elim. by rewrite Hc, IH.
Qed.

Lemma prefix_append s t : String.prefix s (s +:+ t) = true.
Proof.
  induction s as [|c s IH]; [by destruct t|].
  change (String c s +:+ t) with (String c (s +:+ t)). simpl.
  by destruct (ascii_dec c c).
Qed.

Lemma prefix_inv s header :
  String.prefix s header = true -> exists tail, header = s +:+ tail.
Proof.
  revert header. induction s as [|c s IH]; intros header Hpre.
  - by exists header.
  - destruct header as [|c' header]; [discriminate|]. simpl in Hpre.
    destruct (ascii_dec c c') as [<-|]; [|discriminate].
    destruct (IH header Hpre) as [tail ->]. by exists tail.
Qed.

(** X1: The token given to [supabase.auth.getUser] is the text of the header
    between [Bearer ] and the next space, or the end of the header when
    there is none: what follows a second space is dropped, and a header
    that is just [Bearer ] carries the empty token. *)
Theorem bearer_token_passed u req (rows : Table) token rest :
  authorization req = Some ("Bearer " +:+ token +:+ rest) ->
  has_char " " token = false ->
  rest = "" \/ (exists tail, rest = String " " tail) ->
  calls (snd (getSupabaseUser u req (fresh rows)))
  = [call_auth_getUser (Some token)].
Proof.
  intros Hh Htok Hrest.
  assert (split_on " " ("Bearer " +:+ token +:+ rest) !! 1%nat = Some token)
    as Hsplit.
  { change ("Bearer " +:+ token +:+ rest)
      with ("Bearer" +:+ String " " (token +:+ rest)).
    rewrite split_on_first by reflexivity.
    destruct Hrest as [-> | [tail ->]].
    - assert (token +:+ "" = token) as ->.
      { clear. induction token as [|c token IH]; [done|].
        change (String c (token +:+ "") = String c token). by rewrite IH. }
      by rewrite split_on_no_sep.
    - by rewrite split_on_first. }
  pose proof (prefix_append "Bearer " (token +:+ rest)) as Hpre.
  unfold getSupabaseUser, bind, send, ret, log, fresh.
  rewrite Hh, Hpre, Hsplit.
  change (truthy_str (Some ("Bearer " +:+ token +:+ rest))) with true.
  cbn [negb orb].
  by destruct (auth_getUser u (Some token)) as [user [message|]].
Qed.

Lemma bearer_token_passed_witness :
  calls (snd (getSupabaseUser
                (Sample.upstream Sample.subscription_deleted DbOk)
                (Sample.request (Some "Bearer tok-alice and more") None JNull)
                (fresh Sample.rows)))
  = [call_auth_getUser (Some "tok-alice")].
Proof.
  apply (bearer_token_passed
           (Sample.upstream Sample.subscription_deleted DbOk)
           (Sample.request (Some "Bearer tok-alice and more") None JNull)
           Sample.rows "tok-alice" " and more").
  - reflexivity.
  - reflexivity.
  - right. by exists "and more".
Defined.

(** X2: A header that starts with [Bearer ] always yields a token: the second
    piece of the split exists, so [getUser] is never called with
    [undefined]. *)
Theorem access_token_defined u req (rows : Table) header :
  authorization req = Some header ->
  String.prefix "Bearer " header = true ->
  exists token,
    calls (snd (getSupabaseUser u req (fresh rows)))
    = [call_auth_getUser (Some token)].
Proof.
  intros Hh Hpre.
  destruct (prefix_inv _ _ Hpre) as [tail ->].
  change ("Bearer " +:+ tail) with ("Bearer" +:+ String " " tail) in *.
  assert (exists token pieces, split_on " " tail = token :: pieces)
    as (token & pieces & Htail).
  { clear. destruct tail as [|c tail]; simpl; [by eexists _, _|].
    destruct (Ascii.eqb c " "); [by eexists _, _|].
    destruct (split_on " " tail); by eexists _, _. }
  exists token.
  unfold getSupabaseUser, bind, send, ret, log, fresh. rewrite Hh, Hpre.
  change (truthy_str (Some ("Bearer" +:+ String " " tail))) with true.
  cbn [negb orb]. rewrite split_on_first, Htail by reflexivity.
  cbn [lookup list_lookup].
  by destruct (auth_getUser u (Some token)) as [user [message|]].
Qed.

Lemma access_token_defined_witness :
  exists token,
    calls (snd (getSupabaseUser
                  (Sample.upstream Sample.subscription_deleted DbOk)
                  (Sample.request (Some "Bearer ") None JNull)
                  (fresh Sample.rows)))
    = [call_auth_getUser (Some token)].
Proof.
  apply (access_token_defined
           (Sample.upstream Sample.subscription_deleted DbOk)
           (Sample.request (Some "Bearer ") None JNull)
           Sample.rows "Bearer "); reflexivity.
Defined.

Lemma getSupabaseUser_anonymous u req (rows : Table) :
  anonymous u req ->
  exists token,
    getSupabaseUser u req (fresh rows)
    = (Resolved None,
       {| table := rows; calls := [call_auth_getUser token]; sent := None |}).
Proof.
  intros (header & Hh & Hpre & Hnull).
  unfold getSupabaseUser, bind, send, ret, log, fresh. rewrite Hh, Hpre.
  assert (truthy_str (Some header) = true) as ->.
  { destruct header; [discriminate|reflexivity]. }
  simpl. rewrite Hnull. eauto.
Qed.

(** X3: When the identity provider answers a well-formed header with neither a
    user nor an error, the checkout handler answers 403, and the portal and
    both proxies return without sending anything: the request is left
    unanswered.  Nothing is read or written. *)
Theorem null_user_unanswered env u r req (rows : Table) :
  anonymous u req ->
  r <> route_stripe_webhook ->
  (r = route_create_checkout_session ->
   status <$> sent (run (handle env u r req) rows) = Some 403)
  /\ (r <> route_create_checkout_session ->
      sent (run (handle env u r req) rows) = None)
  /\ table (run (handle env u r req) rows) = rows
  /\ Forall (fun e => is_auth_call e = true)
       (calls (run (handle env u r req) rows)).
Proof.
  intros Hanon Hr.
  destruct (getSupabaseUser_anonymous u req rows Hanon) as (tok & Hrun).
  destruct r; try done;
    unfold run, handle, create_checkout_session, create_portal_session,
      gemini_proxy, mmm_proxy, bind;
    rewrite Hrun; simpl; repeat split; try done; by repeat constructor.
Qed.

Lemma null_user_unanswered_witness :
  sent (run (handle Sample.env
               (Sample.silent_provider
                  (Sample.upstream Sample.subscription_deleted DbOk))
               route_create_portal_session Sample.checkout_request)
          Sample.rows) = None.
Proof.
  apply (null_user_unanswered Sample.env
           (Sample.silent_provider
              (Sample.upstream Sample.subscription_deleted DbOk))
           route_create_portal_session Sample.checkout_request Sample.rows).
  - exists "Bearer tok-alice". by repeat split.
  - discriminate.
  - discriminate.
Defined.

(** ** What every route does and never does *)

(** The three ways [getSupabaseUser] ends: a 401 before any call, a 401
    after the identity provider's error, or the provider's user (possibly
    [null]) with nothing sent. *)
Lemma getSupabaseUser_cases u req (rows : Table) :
  exists user cs s,
    getSupabaseUser u req (fresh rows)
    = (Resolved user, {| table := rows; calls := cs; sent := s |})
    /\ ((user = None /\ cs = [] /\ exists r, s = Some r /\ status r = 401)
        \/ (exists token,
              cs = [call_auth_getUser token]
              /\ ((user = None /\ exists r, s = Some r /\ status r = 401)
                  \/ s = None))).
Proof.
  unfold getSupabaseUser, bind, send, ret, log, fresh.
  destruct (authorization req) as [header|].
  - destruct (_ || _).
    + eexists _, _, _. split; [reflexivity|]. left. eauto.
    + destruct (auth_getUser u _) as [user [message|]];
        eexists _, _, _; (split; [reflexivity|]); right; eexists;
        (split; [reflexivity|]); eauto.
  - eexists _, _, _. split; [reflexivity|]. left. eauto.
Qed.

Lemma bind_getSupabaseUser (A : Type) u req (rows : Table) user w
    (k : option User -> M A) :
  getSupabaseUser u req (fresh rows) = (Resolved user, w) ->
  bind (getSupabaseUser u req) k (fresh rows) = k user w.
Proof. intros Hrun. unfold bind. by rewrite Hrun. Qed.

Ltac run_route :=
  cbv beta iota zeta
    delta [run handle create_checkout_session create_portal_session
           gemini_proxy mmm_proxy];
  match goal with
  | |- context [bind (getSupabaseUser ?u ?req) _ (fresh ?rows)] =>
      let user := fresh "user" in
      let cs := fresh "cs" in
      let s := fresh "s" in
      let Hrun := fresh "Hrun" in
      let Hcases := fresh "Hcases" in
      destruct (getSupabaseUser_cases u req rows)
        as (user & cs & s & Hrun & Hcases);
      rewrite !(bind_getSupabaseUser _ _ _ _ _ _ _ Hrun); clear Hrun;
      destruct Hcases
        as [(-> & -> & ? & -> & ?)
           | (? & -> & [(-> & ? & -> & ?) | ->])]
  end;
  run_handler.

Lemma apply_patch_identity (patch : Patch) p :
  Forall (fun cv => cv.1 <> col_id /\ cv.1 <> col_email) patch ->
  identity_of (apply_patch patch p) = identity_of p.
Proof.
  intros Hpatch. revert p.
  induction Hpatch as [| [c v] patch [Hc1 Hc2] _ IH]; intros p; [done|].
  simpl in *. rewrite IH. by destruct c.
Qed.

Lemma update_rows_identity (patch : Patch) c v (rows : Table) :
  Forall (fun cv => cv.1 <> col_id /\ cv.1 <> col_email) patch ->
  identity_of <$> update_rows patch c v rows = identity_of <$> rows.
Proof.
  intros Hpatch. unfold update_rows. rewrite <- list_fmap_compose.
  apply list_fmap_ext. intros i p _. simpl.
  destruct (eq_filter c v p); [|done]. by apply apply_patch_identity.
Qed.

Ltac close_summary :=
  simplify_eq;
  (split; cbn [table calls sent];
  [ done
  | intros ? ?; simplify_eq; unfold status_allowed;
    first [ left; simpl; set_solver
          | right; split; [done|]; simpl; eauto ]
  | intros [? | ?]; simplify_eq; eauto
  | intros [? | [? | ?]]; simplify_eq; done
  | first [ done
          | apply update_rows_identity; repeat constructor; discriminate ]
  | intros ?; simplify_eq;
    first [ by left
          | right; eexists _, _; split; [reflexivity|];
            repeat (apply List.Forall_cons; [simpl; auto|]);
            apply List.Forall_nil ] ]).

Lemma handle_summary env u r req (rows : Table) :
  route_summary u r rows (run (handle env u r req) rows).
Proof.
  destruct r; [run_route | run_route | run_request | run_route | run_route];
    close_summary.
Qed.

(** X4: On the four authenticated routes, no data-store request and no call to
    the payments, AI or analytics provider is made before the token has
    been given to the identity provider. *)
Theorem verification_first env u r req (rows : Table) :
  r <> route_stripe_webhook ->
  starts_with_auth (calls (run (handle env u r req) rows)) = true.
Proof. apply handle_summary. Qed.

Lemma verification_first_witness :
  starts_with_auth
    (calls (run (handle Sample.env
                   (Sample.upstream Sample.subscription_deleted DbOk)
                   route_create_checkout_session Sample.checkout_request)
              Sample.rows)) = true.
Proof.
  apply (verification_first Sample.env
           (Sample.upstream Sample.subscription_deleted DbOk)
           route_create_checkout_session Sample.checkout_request Sample.rows).
  discriminate.
Defined.

(** X5: The portal and both proxies never send a write to the data store, and
    leave the table as it was, whatever the request and the third parties'
    answers. *)
Theorem relays_never_write env u r req (rows : Table) :
  r = route_create_portal_session \/ r = route_gemini_proxy
  \/ r = route_mmm_proxy ->
  count is_update (calls (run (handle env u r req) rows)) = 0%nat
  /\ table (run (handle env u r req) rows) = rows.
Proof. apply handle_summary. Qed.

Lemma relays_never_write_witness :
  count is_update
    (calls (run (handle Sample.env
                   (Sample.upstream Sample.subscription_deleted DbOk)
                   route_mmm_proxy Sample.checkout_request) Sample.rows))
  = 0%nat.
Proof.
  apply (relays_never_write Sample.env
           (Sample.upstream Sample.subscription_deleted DbOk)
           route_mmm_proxy Sample.checkout_request Sample.rows).
  auto.
Defined.



(** X7: A response carries one of the status codes written in its handler; on
    the analytics relay it may also carry the status of the upstream
    response. *)
Theorem response_status env u r req (rows : Table) resp :
  sent (run (handle env u r req) rows) = Some resp ->
  status_allowed u r (status resp).
Proof. apply handle_summary. Qed.

Lemma response_status_witness :
  status_allowed (Sample.upstream Sample.subscription_deleted DbOk)
    route_mmm_proxy 429.
Proof.
  apply (response_status Sample.env
           (Sample.upstream Sample.subscription_deleted DbOk)
           route_mmm_proxy Sample.checkout_request Sample.rows
           (json_response 429 (JObj [("error", JStr "rate limited")]))).
  reflexivity.
Defined.

(** X8: The webhook sends the data store at most one request per event, and
    that request is an update of the subscription identifier or status of
    the rows selected by payments-customer identifier: it never reads the
    table and never writes another column. *)
Theorem webhook_writes_subscription_only env u req (rows : Table) :
  subscription_update_only (calls (run (stripe_webhook env u req) rows)).
Proof. by apply (handle_summary env u route_stripe_webhook req rows). Qed.

(** X9: Whatever sequence of requests the server handles, the table keeps its
    rows, in order, each with its identifier and its email: no profile is
    created, deleted or given to another user. *)
Theorem identity_columns_fixed env exchanges (rows : Table) :
  identity_of <$> serve env exchanges rows = identity_of <$> rows.
Proof.
  revert rows. induction exchanges as [|ex rest IH]; intros rows; [done|].
  simpl. rewrite IH. apply handle_summary.
Qed.

(** ** Checkout sessions: the error paths *)

Ltac as_user Hauth :=
  match type of Hauth with
  | authenticated ?u ?req ?user =>
      let tok := fresh "token" in
      let Hrun := fresh "Hrun" in
      match goal with
      | |- context [run _ ?rows] =>
          destruct (getSupabaseUser_authenticated u req rows user Hauth)
            as (tok & Hrun);
          exists tok;
          cbv beta iota zeta
            delta [run handle create_checkout_session create_portal_session
                   gemini_proxy mmm_proxy];
          rewrite !(bind_getSupabaseUser _ _ _ _ _ _ _ Hrun); clear Hrun
      end
  end.

(** X10: A valid token for one user with another user's identifier in the body
    (or none, or one that is not a string) is answered 403 before anything
    is read from the table or asked of the payments provider. *)
Theorem checkout_forbidden env u req (rows : Table) user :
  authenticated u req user ->
  get_prop (req_body req) "userId" <> Some (JStr (user_id user)) ->
  exists token,
    run (create_checkout_session env u req) rows
    = {| table := rows;
         calls := [call_auth_getUser token];
         sent := Some (json_response 403
                   (JObj [("error",
                           JStr "User token does not match requested user ID.")])) |}.
Proof.
  intros Hauth Hbody. as_user Hauth.
  destruct (get_prop (req_body req) "userId") as [[| | |userId| |]|];
    try reflexivity.
  destruct (String.eqb_spec (user_id user) userId) as [<-|]; [done|].
  reflexivity.
Qed.

Lemma checkout_forbidden_witness :
  exists token,
    run (create_checkout_session Sample.env
           (Sample.upstream Sample.subscription_deleted DbOk)
           (Sample.request (Some "Bearer tok-alice") None
              (JObj [("userId", JStr "u-2")]))) Sample.rows
    = {| table := Sample.rows;
         calls := [call_auth_getUser token];
         sent := Some (json_response 403
                   (JObj [("error",
                           JStr "User token does not match requested user ID.")])) |}.
Proof.
  apply (checkout_forbidden Sample.env
           (Sample.upstream Sample.subscription_deleted DbOk)
           (Sample.request (Some "Bearer tok-alice") None
              (JObj [("userId", JStr "u-2")])) Sample.rows Sample.alice).
  - exists "Bearer tok-alice". by repeat split.
  - discriminate.
Defined.

Lemma single_row_none c v (rows : Table) :
  (forall p, p ∈ rows -> eq_filter c v p = false) ->
  exists message, single_row c v rows = (None, Some message).
Proof.
  intros Hno. unfold single_row.
  assert (filter (fun p => eq_filter c v p = true) rows = []) as ->;
    [|by eexists].
  induction rows as [|p rows IH]; [reflexivity|].
  rewrite filter_cons, decide_False.
  - apply IH. intros q Hq. apply Hno. by apply list_elem_of_further.
  - rewrite Hno by apply list_elem_of_here. discriminate.
Qed.

(** X11: When no profile has the user's identifier, or the data store answers
    the read with an error, the checkout handler answers 404 without
    asking anything of the payments provider. *)
Theorem checkout_profile_missing env u req (rows : Table) user :
  own_checkout u req user ->
  (forall p, p ∈ rows -> profile_id p <> user_id user)
  \/ (exists message, select_outcome u = DbError message) ->
  (forall message, select_outcome u <> DbThrow message) ->
  exists token,
    run (create_checkout_session env u req) rows
    = {| table := rows;
         calls := [call_auth_getUser token;
                   call_select_single col_id (Some (user_id user))];
         sent := Some (json_response 404
                   (JObj [("error", JStr "User profile not found.")])) |}.
Proof.
  intros [Hauth Hbody] Hmiss Hthrow. as_user Hauth.
  rewrite Hbody, String.eqb_refl. cbn [negb]. step_handler.
  destruct (select_outcome u) as [|message|message] eqn:Hsel.
  - destruct Hmiss as [Hno | [? [=]]].
    destruct (single_row_none col_id (Some (user_id user)) rows) as [m Hm].
    { intros p Hp. apply not_true_is_false.
      intros (x & [= <-] & [= Hx])%eq_filter_true. by apply (Hno p). }
    step_handler. by rewrite Hm.
  - reflexivity.
  - by destruct (Hthrow message).
Qed.

Lemma checkout_profile_missing_witness :
  exists token,
    run (create_checkout_session Sample.env
           (Sample.upstream Sample.subscription_deleted DbOk)
           Sample.checkout_request) [Sample.bob_profile]
    = {| table := [Sample.bob_profile];
         calls := [call_auth_getUser token;
                   call_select_single col_id (Some "u-1")];
         sent := Some (json_response 404
                   (JObj [("error", JStr "User profile not found.")])) |}.
Proof.
  apply (checkout_profile_missing Sample.env
           (Sample.upstream Sample.subscription_deleted DbOk)
           Sample.checkout_request [Sample.bob_profile] Sample.alice).
  - split; [|reflexivity]. exists "Bearer tok-alice". by repeat split.
  - left. intros p ->%list_elem_of_singleton. discriminate.
  - discriminate.
Defined.

(** X12: When the payments provider refuses to create the customer, the
    checkout handler answers 500 with the provider's message; nothing is
    stored and no session is asked for. *)
Theorem checkout_customer_failure env u req (rows : Table) user profile
    message :
  own_checkout u req user ->
  single_row col_id (Some (user_id user)) rows = (Some profile, None) ->
  truthy_str (stripe_customer_id profile) = false ->
  select_outcome u = DbOk ->
  customers_create u = Rejected message ->
  exists token,
    run (create_checkout_session env u req) rows
    = {| table := rows;
         calls := [call_auth_getUser token;
                   call_select_single col_id (Some (user_id user));
                   call_customers_create
                     (or_else (profile_email profile) (user_email user))
                     (user_id user)];
         sent := Some (json_response 500 (JObj [("error", JStr message)])) |}.
Proof.
  intros [Hauth Hbody] Hsingle Hnone Hsel Hcus. as_user Hauth.
  rewrite Hbody, String.eqb_refl. cbn [negb].
  step_handler. rewrite Hsel. step_handler. rewrite Hsingle, Hnone.
  step_handler. by rewrite Hcus.
Qed.

Lemma checkout_customer_failure_witness :
  exists token,
    run (create_checkout_session Sample.env
           (Sample.answering (Rejected "card network down") (Resolved "cs_1")
              (Resolved "url") (Resolved "text") (Rejected "offline")
              (Sample.upstream Sample.subscription_deleted DbOk))
           Sample.checkout_request) Sample.rows
    = {| table := Sample.rows;
         calls := [call_auth_getUser token;
                   call_select_single col_id (Some "u-1");
                   call_customers_create (Some "alice@example.com") "u-1"];
         sent := Some (json_response 500
                   (JObj [("error", JStr "card network down")])) |}.
Proof.
  apply (checkout_customer_failure Sample.env
           (Sample.answering (Rejected "card network down") (Resolved "cs_1")
              (Resolved "url") (Resolved "text") (Rejected "offline")
              (Sample.upstream Sample.subscription_deleted DbOk))
           Sample.checkout_request Sample.rows Sample.alice
           Sample.alice_profile "card network down").
  - split; [|reflexivity]. exists "Bearer tok-alice". by repeat split.
  - reflexivity.
  - reflexivity.
  - reflexivity.
  - reflexivity.
Defined.

(** X13: When the customer has been created and stored but the session cannot
    be created, the checkout handler answers 500 and the stored identifier
    stays: the profile read back from the table carries it. *)
Theorem checkout_session_failure_keeps_customer env u req (rows : Table)
    user profile customer_id message :
  own_checkout u req user ->
  single_row col_id (Some (user_id user)) rows = (Some profile, None) ->
  truthy_str (stripe_customer_id profile) = false ->
  select_outcome u = DbOk ->
  customers_create u = Resolved customer_id ->
  update_outcome u = DbOk ->
  checkout_sessions_create u = Rejected message ->
  sent (run (create_checkout_session env u req) rows)
  = Some (json_response 500 (JObj [("error", JStr message)]))
  /\ single_row col_id (Some (user_id user))
       (table (run (create_checkout_session env u req) rows))
     = (Some (set_col col_stripe_customer_id (Some customer_id) profile), None).
Proof.
  intros [Hauth Hbody] Hsingle Hnone Hsel Hcus Hupd Hses.
  destruct (getSupabaseUser_authenticated u req rows user Hauth) as (tok & Hrun).
  unfold run, create_checkout_session.
  rewrite !(bind_getSupabaseUser _ _ _ _ _ _ _ Hrun).
  rewrite Hbody, String.eqb_refl. cbn [negb].
  step_handler. rewrite Hsel. step_handler. rewrite Hsingle, Hnone.
  step_handler. rewrite Hcus. step_handler. rewrite Hupd. step_handler.
  rewrite Hses. step_handler. split; [reflexivity|].
  by eapply single_row_after_store.
Qed.

Lemma checkout_session_failure_keeps_customer_witness :
  sent (run (create_checkout_session Sample.env
               (Sample.answering (Resolved "cus_A") (Rejected "no such price")
                  (Resolved "url") (Resolved "text") (Rejected "offline")
                  (Sample.upstream Sample.subscription_deleted DbOk))
               Sample.checkout_request) Sample.rows)
  = Some (json_response 500 (JObj [("error", JStr "no such price")])).
Proof.
  apply (checkout_session_failure_keeps_customer Sample.env
           (Sample.answering (Resolved "cus_A") (Rejected "no such price")
              (Resolved "url") (Resolved "text") (Rejected "offline")
              (Sample.upstream Sample.subscription_deleted DbOk))
           Sample.checkout_request Sample.rows Sample.alice
           Sample.alice_profile "cus_A" "no such price").
  - split; [|reflexivity]. exists "Bearer tok-alice". by repeat split.
  - reflexivity.
  - reflexivity.
  - reflexivity.
  - reflexivity.
  - reflexivity.
  - reflexivity.
Defined.

(** ** The customer portal *)

(** X14: The portal handler reads nothing of the request but its Authorization
    header: a customer identifier, or anything else, put in the body has no
    effect on what it does. *)
Theorem portal_ignores_body env u req1 req2 (rows : Table) :
  authorization req1 = authorization req2 ->
  run (create_portal_session env u req1) rows
  = run (create_portal_session env u req2) rows.
Proof.
  intros Hauth. unfold run, create_portal_session, getSupabaseUser.
  by rewrite Hauth.
Qed.

Lemma portal_ignores_body_witness :
  run (create_portal_session Sample.env
         (Sample.upstream Sample.subscription_deleted DbOk)
         (Sample.request (Some "Bearer tok-alice") None
            (JObj [("customerId", JStr "cus_B")]))) Sample.rows
  = run (create_portal_session Sample.env
           (Sample.upstream Sample.subscription_deleted DbOk)
           (Sample.request (Some "Bearer tok-alice") None (JObj [])))
      Sample.rows.
Proof.
  apply (portal_ignores_body Sample.env
           (Sample.upstream Sample.subscription_deleted DbOk)
           (Sample.request (Some "Bearer tok-alice") None
              (JObj [("customerId", JStr "cus_B")]))
           (Sample.request (Some "Bearer tok-alice") None (JObj []))
           Sample.rows).
  reflexivity.
Defined.

(** X15: A user whose profile has no payments-customer identifier gets 404 from
    the portal handler, and the payments provider is not asked for a
    session. *)
Theorem portal_without_customer env u req (rows : Table) user profile :
  authenticated u req user ->
  single_row col_id (Some (user_id user)) rows = (Some profile, None) ->
  truthy_str (stripe_customer_id profile) = false ->
  select_outcome u = DbOk ->
  exists token,
    run (create_portal_session env u req) rows
    = {| table := rows;
         calls := [call_auth_getUser token;
                   call_select_single col_id (Some (user_id user))];
         sent := Some (json_response 404
                   (JObj [("error",
                           JStr "Stripe customer ID not found for user.")])) |}.
Proof.
  intros Hauth Hsingle Hnone Hsel. as_user Hauth.
  step_handler. rewrite Hsel. step_handler. by rewrite Hsingle, Hnone.
Qed.

Lemma portal_without_customer_witness :
  exists token,
    run (create_portal_session Sample.env
           (Sample.upstream Sample.subscription_deleted DbOk)
           Sample.checkout_request) Sample.rows
    = {| table := Sample.rows;
         calls := [call_auth_getUser token;
                   call_select_single col_id (Some "u-1")];
         sent := Some (json_response 404
                   (JObj [("error",
                           JStr "Stripe customer ID not found for user.")])) |}.
Proof.
  apply (portal_without_customer Sample.env
           (Sample.upstream Sample.subscription_deleted DbOk)
           Sample.checkout_request Sample.rows Sample.alice
           Sample.alice_profile).
  - exists "Bearer tok-alice". by repeat split.
  - reflexivity.
  - reflexivity.
  - reflexivity.
Defined.

(** X16: For a user whose profile has a payments-customer identifier, the
    portal session is asked for that stored identifier, with the
    application URL as return address, and its URL is the answer; the
    table is left as it was. *)
Theorem portal_session_for_stored_customer env u req (rows : Table) user
    profile url :
  authenticated u req user ->
  single_row col_id (Some (user_id user)) rows = (Some profile, None) ->
  truthy_str (stripe_customer_id profile) = true ->
  select_outcome u = DbOk ->
  billingPortal_sessions_create u = Resolved url ->
  exists token,
    run (create_portal_session env u req) rows
    = {| table := rows;
         calls := [call_auth_getUser token;
                   call_select_single col_id (Some (user_id user));
                   call_billingPortal_sessions_create
                     (stripe_customer_id profile)
                     (template (env !! "APP_URL"))];
         sent := Some (json_response 200 (JObj [("url", JStr url)])) |}.
Proof.
  intros Hauth Hsingle Hset Hsel Hportal. as_user Hauth.
  step_handler. rewrite Hsel. step_handler. rewrite Hsingle, Hset.
  step_handler. by rewrite Hportal.
Qed.

Lemma portal_session_for_stored_customer_witness :
  exists token,
    run (create_portal_session Sample.env
           (Sample.accepting "tok-bob" Sample.bob
              (Sample.upstream Sample.subscription_deleted DbOk))
           (Sample.request (Some "Bearer tok-bob") None (JObj [])))
      Sample.rows
    = {| table := Sample.rows;
         calls := [call_auth_getUser token;
                   call_select_single col_id (Some "u-2");
                   call_billingPortal_sessions_create (Some "cus_B")
                     "https://app.example.com"];
         sent := Some (json_response 200
                   (JObj [("url", JStr "https://billing.example.com/p")])) |}.
Proof.
  apply (portal_session_for_stored_customer Sample.env
           (Sample.accepting "tok-bob" Sample.bob
              (Sample.upstream Sample.subscription_deleted DbOk))
           (Sample.request (Some "Bearer tok-bob") None (JObj []))
           Sample.rows Sample.bob Sample.bob_profile
           "https://billing.example.com/p").
  - exists "Bearer tok-bob". by repeat split.
  - reflexivity.
  - reflexivity.
  - reflexivity.
  - reflexivity.
Defined.

(** ** Webhook ingestion: the other events *)

(** X17: The webhook reads the raw body and the signature header only: a bearer
    token, or the lack of one, changes nothing. *)
Theorem webhook_ignores_bearer env u req1 req2 (rows : Table) :
  raw_body req1 = raw_body req2 ->
  stripe_signature req1 = stripe_signature req2 ->
  run (stripe_webhook env u req1) rows = run (stripe_webhook env u req2) rows.
Proof. intros Hbody Hsig. unfold run, stripe_webhook. by rewrite Hbody, Hsig. Qed.

Lemma webhook_ignores_bearer_witness :
  run (stripe_webhook Sample.env
         (Sample.upstream Sample.subscription_deleted DbOk)
         (Sample.request (Some "Bearer tok-mallory") (Some "good") JNull))
    Sample.rows
  = run (stripe_webhook Sample.env
           (Sample.upstream Sample.subscription_deleted DbOk)
           (Sample.request None (Some "good") (JObj []))) Sample.rows.
Proof.
  apply (webhook_ignores_bearer Sample.env
           (Sample.upstream Sample.subscription_deleted DbOk)
           (Sample.request (Some "Bearer tok-mallory") (Some "good") JNull)
           (Sample.request None (Some "good") (JObj [])) Sample.rows);
    reflexivity.
Defined.

(** X18: A verified event of any type other than the three the [switch] names
    is acknowledged with 200 and [{ received: true }]; the data store is
    not contacted. *)
Theorem webhook_unhandled_event env u req (rows : Table) event :
  verified env u req event ->
  event_type event ∉ handled_event_types ->
  run (stripe_webhook env u req) rows
  = {| table := rows; calls := []; sent := Some received |}.
Proof.
  intros Hv Hty. rewrite (stripe_webhook_verified _ _ _ _ Hv).
  unfold run, try_catch, bind, dispatch.
  assert (forall name, name ∈ handled_event_types ->
            String.eqb (event_type event) name = false) as Hne.
  { intros name Hin. apply String.eqb_neq. by intros <-. }
  rewrite !Hne by (unfold handled_event_types; set_solver).
  reflexivity.
Qed.

Lemma webhook_unhandled_event_witness :
  run (stripe_webhook Sample.env (Sample.upstream Sample.invoice_paid DbOk)
         (Sample.webhook_request "good")) Sample.rows
  = {| table := Sample.rows; calls := []; sent := Some received |}.
Proof.
  apply (webhook_unhandled_event Sample.env
           (Sample.upstream Sample.invoice_paid DbOk)
           (Sample.webhook_request "good") Sample.rows Sample.invoice_paid).
  - reflexivity.
  - unfold handled_event_types. intros Hin.
    apply list_elem_of_In in Hin. simpl in Hin.
    destruct Hin as [|[|[|[]]]]; discriminate.
Defined.

(** X19: A verified [checkout.session.completed] event in subscription mode,
    for the customer of a stored profile, stores the event's subscription
    identifier on that profile and sets its status to [trialing]; its
    identifier, email and payments-customer identifier stay (the data store
    applying the write it is sent). *)
Theorem checkout_completed_starts_trial env u req (rows : Table) event c i p :
  verified env u req event ->
  event_type event = "checkout.session.completed" ->
  mode (data_object event) = Some "subscription" ->
  customer (data_object event) = Some c ->
  update_outcome u = DbOk ->
  rows !! i = Some p ->
  stripe_customer_id p = Some c ->
  table (run (stripe_webhook env u req) rows) !! i
  = Some {| profile_id := profile_id p;
            profile_email := profile_email p;
            stripe_customer_id := stripe_customer_id p;
            subscription_id := subscription (data_object event);
            subscription_status := Some "trialing" |}.
Proof.
  intros Hv Hty Hmode Hc Hdb Hi Hp. rewrite (stripe_webhook_verified _ _ _ _ Hv).
  assert (dispatch u event
          = (update u [(col_subscription_id, subscription (data_object event));
                       (col_subscription_status, Some "trialing")]
               col_stripe_customer_id (Some c) ;; ret tt)) as ->.
  { unfold dispatch. by rewrite Hty, Hmode, Hc. }
  unfold run, try_catch, bind. rewrite update_run, Hdb. simpl.
  rewrite update_rows_lookup, Hi. simpl.
  unfold eq_filter. simpl. by rewrite Hp, String.eqb_refl.
Qed.

Lemma checkout_completed_starts_trial_witness :
  table (run (stripe_webhook Sample.env
                (Sample.upstream
                   (Sample.checkout_completed "cus_B" "subscription") DbOk)
                (Sample.webhook_request "good")) Sample.rows) !! 1%nat
  = Some {| profile_id := "u-2";
            profile_email := Some "bob@example.com";
            stripe_customer_id := Some "cus_B";
            subscription_id := Some "sub_1";
            subscription_status := Some "trialing" |}.
Proof.
  apply (checkout_completed_starts_trial Sample.env
           (Sample.upstream
              (Sample.checkout_completed "cus_B" "subscription") DbOk)
           (Sample.webhook_request "good") Sample.rows
           (Sample.checkout_completed "cus_B" "subscription") "cus_B" 1%nat
           Sample.bob_profile); reflexivity.
Defined.

(** X20: A verified subscription event whose customer is that of no stored
    profile changes nothing, and is acknowledged with 200 and
    [{ received: true }] whenever the data store answers. *)
Theorem subscription_event_unknown_customer env u req (rows : Table) event :
  verified env u req event ->
  event_type event = "customer.subscription.updated"
  \/ event_type event = "customer.subscription.deleted" ->
  unknown_customer event rows ->
  table (run (stripe_webhook env u req) rows) = rows
  /\ ((forall message, update_outcome u <> DbThrow message) ->
      sent (run (stripe_webhook env u req) rows) = Some received).
Proof.
  intros Hv Hty Hunk. rewrite (stripe_webhook_verified _ _ _ _ Hv).
  assert (dispatch u event
          = (update u [(col_subscription_status, object_status (data_object event))]
               col_stripe_customer_id (customer (data_object event)) ;; ret tt))
    as ->.
  { unfold dispatch. by destruct Hty as [-> | ->]. }
  unfold run, try_catch, bind. rewrite update_run.
  destruct (update_outcome u) as [|m|m]; simpl.
  - rewrite update_rows_no_match by by apply unknown_customer_no_match.
    by split.
  - by split.
  - split; [reflexivity|]. intros Hno. by destruct (Hno m).
Qed.

Lemma subscription_event_unknown_customer_witness :
  table (run (stripe_webhook Sample.env
                (Sample.upstream Sample.subscription_deleted DbOk)
                (Sample.webhook_request "good")) [Sample.alice_profile])
  = [Sample.alice_profile].
Proof.
  apply (subscription_event_unknown_customer Sample.env
           (Sample.upstream Sample.subscription_deleted DbOk)
           (Sample.webhook_request "good") [Sample.alice_profile]
           Sample.subscription_deleted).
  - reflexivity.
  - by right.
  - intros p c ->%list_elem_of_singleton _. discriminate.
Defined.

(** X21: For a verified event, the answer is 500 exactly when a write was sent
    to the data store and the data store threw. *)
Theorem webhook_error_iff env u req (rows : Table) event :
  verified env u req event ->
  sent (run (stripe_webhook env u req) rows)
  = Some (text_response 500 "Internal Server Error")
  <-> calls (run (stripe_webhook env u req) rows) <> []
      /\ exists message, update_outcome u = DbThrow message.
Proof.
  intros Hv. rewrite (stripe_webhook_verified _ _ _ _ Hv).
  unfold run, fresh, dispatch. run_handler; simplify_eq; simpl;
    split; try done; try (intros [? [? ?]]; done); eauto.
Qed.

Lemma webhook_error_iff_witness :
  sent (run (stripe_webhook Sample.env
               (Sample.upstream Sample.subscription_deleted
                  (DbThrow "connection reset"))
               (Sample.webhook_request "good")) Sample.rows)
  = Some (text_response 500 "Internal Server Error").
Proof.
  apply (webhook_error_iff Sample.env
           (Sample.upstream Sample.subscription_deleted
              (DbThrow "connection reset"))
           (Sample.webhook_request "good") Sample.rows
           Sample.subscription_deleted).
  - reflexivity.
  - split; [discriminate|]. by eexists.
Defined.

(** ** Generation relay *)

(** X22: A body whose prompt or model is absent or falsy ([null], the empty
    string, [0], [false]) is answered 400, and the AI provider is not
    called. *)
Theorem gemini_missing_fields u req (rows : Table) user :
  authenticated u req user ->
  truthy (get_prop (req_body req) "prompt") = false
  \/ truthy (get_prop (req_body req) "model") = false ->
  exists token,
    run (gemini_proxy u req) rows
    = {| table := rows;
         calls := [call_auth_getUser token];
         sent := Some (json_response 400
                   (JObj [("error",
                           JStr "Missing required fields: prompt and model.")])) |}.
Proof.
  intros Hauth Hmiss. as_user Hauth.
  assert (negb (truthy (get_prop (req_body req) "prompt"))
          || negb (truthy (get_prop (req_body req) "model")) = true) as ->.
  { destruct Hmiss as [-> | ->]; [reflexivity | apply orb_true_r]. }
  reflexivity.
Qed.

Lemma gemini_missing_fields_witness :
  exists token,
    run (gemini_proxy (Sample.upstream Sample.subscription_deleted DbOk)
           (Sample.prompt_request (JObj [("prompt", JStr "hello")])))
      Sample.rows
    = {| table := Sample.rows;
         calls := [call_auth_getUser token];
         sent := Some (json_response 400
                   (JObj [("error",
                           JStr "Missing required fields: prompt and model.")])) |}.
Proof.
  apply (gemini_missing_fields
           (Sample.upstream Sample.subscription_deleted DbOk)
           (Sample.prompt_request (JObj [("prompt", JStr "hello")]))
           Sample.rows Sample.alice).
  - exists "Bearer tok-alice". by repeat split.
  - right. reflexivity.
Defined.

(** X23: With a prompt and a model, the AI provider is called once with both as
    given and with the body's config, or an empty object when the config is
    absent or falsy; its text is the body of the 200 answer, as text. *)
Theorem gemini_text_returned u req (rows : Table) user text :
  authenticated u req user ->
  truthy (get_prop (req_body req) "prompt") = true ->
  truthy (get_prop (req_body req) "model") = true ->
  generateContent u = Resolved text ->
  exists token,
    run (gemini_proxy u req) rows
    = {| table := rows;
         calls := [call_auth_getUser token;
                   call_generateContent
                     (get_prop (req_body req) "model")
                     (get_prop (req_body req) "prompt")
                     (if truthy (get_prop (req_body req) "config")
                      then get_prop (req_body req) "config"
                      else Some (JObj []))];
         sent := Some (text_response 200 text) |}.
Proof.
  intros Hauth Hprompt Hmodel Hgen. as_user Hauth.
  rewrite Hprompt, Hmodel. cbn [negb orb]. step_handler. by rewrite Hgen.
Qed.

Lemma gemini_text_returned_witness :
  exists token,
    run (gemini_proxy (Sample.upstream Sample.subscription_deleted DbOk)
           (Sample.prompt_request
              (JObj [("prompt", JStr "hello"); ("model", JStr "gemini-pro")])))
      Sample.rows
    = {| table := Sample.rows;
         calls := [call_auth_getUser token;
                   call_generateContent (Some (JStr "gemini-pro"))
                     (Some (JStr "hello")) (Some (JObj []))];
         sent := Some (text_response 200 "text") |}.
Proof.
  apply (gemini_text_returned
           (Sample.upstream Sample.subscription_deleted DbOk)
           (Sample.prompt_request
              (JObj [("prompt", JStr "hello"); ("model", JStr "gemini-pro")]))
           Sample.rows Sample.alice "text").
  - exists "Bearer tok-alice". by repeat split.
  - reflexivity.
  - reflexivity.
  - reflexivity.
Defined.

(** X24: When the AI provider fails, the answer is 500 with the relay's envelope
    and the provider's message as details. *)
Theorem gemini_upstream_failure u req (rows : Table) user message :
  authenticated u req user ->
  truthy (get_prop (req_body req) "prompt") = true ->
  truthy (get_prop (req_body req) "model") = true ->
  generateContent u = Rejected message ->
  sent (run (gemini_proxy u req) rows)
  = Some (json_response 500
            (JObj [("error", JStr "Failed to get response from AI model.");
                   ("details", JStr message)])).
Proof.
  intros Hauth Hprompt Hmodel Hgen.
  destruct (getSupabaseUser_authenticated u req rows user Hauth) as (tok & Hrun).
  unfold run, gemini_proxy. rewrite (bind_getSupabaseUser _ _ _ _ _ _ _ Hrun).
  rewrite Hprompt, Hmodel. cbn [negb orb]. step_handler. by rewrite Hgen.
Qed.

Lemma gemini_upstream_failure_witness :
  sent (run (gemini_proxy
               (Sample.answering (Resolved "cus_A") (Resolved "cs_1")
                  (Resolved "url") (Rejected "quota exceeded")
                  (Rejected "offline")
                  (Sample.upstream Sample.subscription_deleted DbOk))
               (Sample.prompt_request
                  (JObj [("prompt", JStr "hello");
                         ("model", JStr "gemini-pro")])))
          Sample.rows)
  = Some (json_response 500
            (JObj [("error", JStr "Failed to get response from AI model.");
                   ("details", JStr "quota exceeded")])).
Proof.
  apply (gemini_upstream_failure
           (Sample.answering (Resolved "cus_A") (Resolved "cs_1")
              (Resolved "url") (Rejected "quota exceeded")
              (Rejected "offline")
              (Sample.upstream Sample.subscription_deleted DbOk))
           (Sample.prompt_request
              (JObj [("prompt", JStr "hello"); ("model", JStr "gemini-pro")]))
           Sample.rows Sample.alice "quota exceeded").
  - exists "Bearer tok-alice". by repeat split.
  - reflexivity.
  - reflexivity.
  - reflexivity.
Defined.

(** ** Analytics relay: the request sent upstream *)

(** X25: On a started server, an authenticated request to the analytics relay
    makes exactly one upstream request, to the fixed endpoint, with the
    server's key and the request body as it came, whatever the upstream
    then answers; the "key is not configured" answer cannot occur. *)
Theorem mmm_single_fetch env u req (rows : Table) user :
  missing_critical env = false ->
  authenticated u req user ->
  exists token,
    calls (run (mmm_proxy env u req) rows)
    = [call_auth_getUser token;
       call_fetch mmmApiEndpoint (env !! "MMM_API_KEY") (req_body req)].
Proof.
  intros Henv Hauth. as_user Hauth.
  rewrite (started_has_mmm_key env Henv). cbn [negb].
  run_handler; by simplify_eq.
Qed.

Lemma mmm_single_fetch_witness :
  exists token,
    calls (run (mmm_proxy Sample.env
                  (Sample.upstream Sample.subscription_deleted DbOk)
                  Sample.checkout_request) Sample.rows)
    = [call_auth_getUser token;
       call_fetch mmmApiEndpoint (Some "mmm-key")
         (JObj [("userId", JStr "u-1")])].
Proof.
  apply (mmm_single_fetch Sample.env
           (Sample.upstream Sample.subscription_deleted DbOk)
           Sample.checkout_request Sample.rows Sample.alice).
  - vm_compute. reflexivity.
  - exists "Bearer tok-alice". by repeat split.
Defined.

Lemma mmm_proxy_upstream_failure_witness :
  sent (run (mmm_proxy Sample.env
               (Sample.answering (Resolved "cus_A") (Resolved "cs_1")
                  (Resolved "url") (Resolved "text")
                  (Resolved (502, Rejected "Unexpected token < in JSON"))
                  (Sample.upstream Sample.subscription_deleted DbOk))
               Sample.checkout_request) Sample.rows)
  = Some (json_response 500
            (JObj [("error", JStr "Failed to proxy request to MMM service.");
                   ("details", JStr "Unexpected token < in JSON")])).
Proof.
  apply (mmm_proxy_upstream_failure Sample.env
           (Sample.answering (Resolved "cus_A") (Resolved "cs_1")
              (Resolved "url") (Resolved "text")
              (Resolved (502, Rejected "Unexpected token < in JSON"))
              (Sample.upstream Sample.subscription_deleted DbOk))
           Sample.checkout_request Sample.rows Sample.alice
           "Unexpected token < in JSON").
  - vm_compute. reflexivity.
  - exists "Bearer tok-alice". by repeat split.
  - right. by exists 502.
Defined.

Lemma subscription_event_frame_witness :
  table (run (stripe_webhook Sample.env
                (Sample.upstream Sample.subscription_deleted DbOk)
                (Sample.webhook_request "good")) Sample.rows) !! 0%nat
  = Some Sample.alice_profile.
Proof.
  apply (subscription_event_frame Sample.env
           (Sample.upstream Sample.subscription_deleted DbOk)
           (Sample.webhook_request "good") Sample.rows
           Sample.subscription_deleted 0%nat Sample.alice_profile).
  - reflexivity.
  - by right.
  - reflexivity.
  - discriminate.
Defined.

(** ** Startup: which environments stop the process *)

Lemma env_missing_true (env : Env) name :
  env_missing env name = true <-> env !! name = None \/ env !! name = Some "".
Proof.
  unfold env_missing, truthy_str. destruct (env !! name) as [s|].
  - rewrite negb_involutive, String.eqb_eq. split; [intros ->; auto|].
    by intros [|[= ->]].
  - split; auto.
Qed.

(** X28: The guard of lines 35-38 fires exactly when one of the seven
    variables it names is unset or set to the empty string, and when it
    fires the process exits with code 1. *)
Theorem startup_guard_iff (env : Env) :
  (missing_critical env = true
   <-> exists name,
         name ∈ guarded_variables
         /\ (env !! name = None \/ env !! name = Some ""))
  /\ (missing_critical env = true -> startup env = Exit 1).
Proof.
  split; [split|].
  - intros Hmiss. unfold missing_critical in Hmiss.
    rewrite !orb_true_iff in Hmiss.
    destruct Hmiss as [[[[[[Hmiss|Hmiss]|Hmiss]|Hmiss]|Hmiss]|Hmiss]|Hmiss];
      apply (proj1 (env_missing_true _ _)) in Hmiss;
      eexists; (split; [|exact Hmiss]);
      apply list_elem_of_In; simpl; tauto.
  - intros (name & Hin & Hname).
    apply (proj2 (env_missing_true _ _)) in Hname.
    unfold missing_critical.
    apply list_elem_of_In in Hin. simpl in Hin.
    repeat (destruct Hin as [<- | Hin];
            [rewrite Hname; simpl; by rewrite ?orb_true_r|]).
    destruct Hin.
  - unfold startup. by intros ->.
Qed.
